(** * The normalization and aggregation engine of the grading front end

    A shallow embedding of [src/lib/grading.ts] ([pick], [toNum], [toStr],
    [getRubricNamesFromUser], [buildRubricField]), of the two normalizers of
    [src/App.tsx] ([normalizeGradeResponse], [normalizeBatchResponse]), of
    the recompute helpers and the review and upload handlers of
    [SingleGradingCard.tsx] and [BatchGradingCard.tsx], and of the cells of
    [pdf/BatchSummaryPDF.tsx].

    JavaScript numbers are binary64 floats: they are Rocq's primitive
    floats.  A JavaScript string is a [string] whose characters are the code
    units 0..255.  A call that throws is a [Throw] of the [outcome] monad. *)

From Stdlib Require Import ZArith List String Ascii Bool Lia DecimalString.
From Stdlib Require Import PrimFloat SpecFloat FloatOps FloatAxioms.
Import ListNotations.

Set Warnings "-inexact-float,-register-all".

Local Open Scope string_scope.
Local Open Scope list_scope.

(** ** Exceptions *)

Inductive JsError : Type := TypeError.

Inductive outcome (A : Type) : Type :=
| Ok (a : A)
| Throw (e : JsError).

Arguments Ok {A} a.
Arguments Throw {A} e.

Definition bind {A B} (r : outcome A) (k : A -> outcome B) : outcome B :=
  match r with
  | Ok a => k a
  | Throw e => Throw e
  end.

Notation "x <- r ;; k" := (bind r (fun x => k))
  (at level 61, r at next level, right associativity).

(** [Array.prototype.map] with a callback that may throw. *)
Fixpoint mapM {A B} (f : A -> outcome B) (xs : list A) : outcome (list B) :=
  match xs with
  | [] => Ok []
  | x :: r => y <- f x ;; ys <- mapM f r ;; Ok (y :: ys)
  end.

(** [xs.map((x, idx) => f(x, idx))], the index starting at [i]. *)
Fixpoint mapiM {A B} (f : A -> nat -> outcome B) (i : nat) (xs : list A)
  : outcome (list B) :=
  match xs with
  | [] => Ok []
  | x :: r => y <- f x i ;; ys <- mapiM f (S i) r ;; Ok (y :: ys)
  end.

(** ** Strings *)

(** WhiteSpace and LineTerminator code units below 256: TAB, LF, VT, FF, CR,
    SP and NBSP. *)
Definition is_space (c : ascii) : bool :=
  let n := nat_of_ascii c in
  (Nat.leb 9 n && Nat.leb n 13) || Nat.eqb n 32 || Nat.eqb n 160.

Fixpoint trimStart (s : string) : string :=
  match s with
  | String c r => if is_space c then trimStart r else s
  | EmptyString => EmptyString
  end.

Fixpoint trimEnd (s : string) : string :=
  match s with
  | String c r =>
      match trimEnd r with
      | EmptyString => if is_space c then EmptyString else String c EmptyString
      | r' => String c r'
      end
  | EmptyString => EmptyString
  end.

(** [String.prototype.trim] *)
Definition trim (s : string) : string := trimEnd (trimStart s).

Definition is_empty (s : string) : bool :=
  match s with EmptyString => true | _ => false end.

(** The decimal digits of a natural number: an array index as a property
    key, and the [idx + 1] of a template literal. *)
Definition string_of_nat (n : nat) : string :=
  NilZero.string_of_uint (Nat.to_uint n).

Fixpoint repeat_string (n : nat) (c : ascii) : string :=
  match n with
  | O => EmptyString
  | S k => String c (repeat_string k c)
  end.

Fixpoint join (sep : string) (xs : list string) : string :=
  match xs with
  | [] => ""
  | [x] => x
  | x :: r => x ++ sep ++ join sep r
  end.

(** ** Numbers *)

Module Num.

Local Open Scope Z_scope.

Definition of_Z (z : Z) : float :=
  SF2Prim (binary_normalize prec emax z 0 false).

Definition of_nat (n : nat) : float := of_Z (Z.of_nat n).

(** The float nearest to [n / d] (ties to even), for [n >= 0], [d > 0] and
    [10^-331 <= n / d]: the quotient is taken with 1200 extra bits and a
    sticky bit, then rounded once. *)
Definition of_ratio (neg : bool) (n d : Z) : float :=
  let q := (n * 2 ^ 1200) / d in
  let sticky := if (n * 2 ^ 1200) mod d =? 0 then 0 else 1 in
  let m := 2 * q + sticky in
  SF2Prim (binary_normalize prec emax (if neg then - m else m) (-1201) neg).

(** [Math.round]: the nearest integer, a tie going towards +infinity; the
    sign of a zero result is the sign of the argument. *)
Definition round (x : float) : float :=
  match Prim2SF x with
  | S754_finite s m e =>
      if 0 <=? e then x
      else
        let d := 2 ^ (- e) in
        let sm := if s then Z.neg m else Z.pos m in
        let n := (2 * sm + d) / (2 * d) in
        if n =? 0 then (if s then neg_zero else zero) else of_Z n
  | _ => x
  end.

(** [Math.max] and [Math.min] of two arguments. *)
Definition max2 (a b : float) : float :=
  if is_nan a || is_nan b then nan
  else if ltb a b then b
  else if ltb b a then a
  else if get_sign a then b else a.

Definition min2 (a b : float) : float :=
  if is_nan a || is_nan b then nan
  else if ltb a b then a
  else if ltb b a then b
  else if get_sign a then a else b.

(** [Math.max(...xs)] and [Math.min(...xs)]: the numbers are passed as the
    arguments of one call.  An engine bounds the number of arguments of a
    call, to some ten thousands at least, which the fold does not: where a
    statement below gives the value of such a call, it is made for at most
    1000 numbers. *)
Definition max (xs : list float) : float := fold_left max2 xs neg_infinity.
Definition min (xs : list float) : float := fold_left min2 xs infinity.

End Num.

(** ** Conversions between strings and numbers *)

Module NumText.

Local Open Scope Z_scope.

Definition digit_val (base : Z) (c : ascii) : option Z :=
  let n := Z.of_nat (nat_of_ascii c) in
  let d := if (48 <=? n) && (n <=? 57) then n - 48
           else if (97 <=? n) && (n <=? 102) then n - 87
           else if (65 <=? n) && (n <=? 70) then n - 55
           else base in
  if d <? base then Some d else None.

Fixpoint span_digits (s : string) : list Z * string :=
  match s with
  | String c r =>
      match digit_val 10 c with
      | Some d => let (ds, rest) := span_digits r in (d :: ds, rest)
      | None => ([], s)
      end
  | EmptyString => ([], s)
  end.

Definition digits_value (ds : list Z) : Z :=
  fold_left (fun acc d => acc * 10 + d) ds 0.

Fixpoint strip_zeros (ds : list Z) : list Z :=
  match ds with
  | d :: r => if d =? 0 then strip_zeros r else ds
  | [] => []
  end.

Fixpoint parse_radix (base : Z) (s : string) (acc : Z) : option Z :=
  match s with
  | EmptyString => Some acc
  | String c r =>
      match digit_val base c with
      | Some d => parse_radix base r (acc * base + d)
      | None => None
      end
  end.

(** NonDecimalIntegerLiteral: the digits after [0x], [0o] or [0b]. *)
Definition radix_literal (base : Z) (s : string) : float :=
  match s with
  | EmptyString => nan
  | _ => match parse_radix base s 0 with
         | Some n => Num.of_Z n
         | None => nan
         end
  end.

(** ExponentPart, after the digits: nothing, or [e] or [E], a sign and at
    least one digit, up to the end of the string. *)
Definition parse_exponent (s : string) : option Z :=
  match s with
  | EmptyString => Some 0
  | String c r =>
      if (Ascii.eqb c "e" || Ascii.eqb c "E")%bool then
        let '(neg, r1) :=
          match r with
          | String "+" r' => (false, r')
          | String "-" r' => (true, r')
          | _ => (false, r)
          end in
        match span_digits r1 with
        | (d :: ds, EmptyString) =>
            let v := digits_value (d :: ds) in Some (if neg then - v else v)
        | _ => None
        end
      else None
  end.

(** The value [D * 10^E] of decimal digits, rounded to a float. *)
Definition decimal_value (neg : bool) (ds : list Z) (E : Z) : float :=
  let sig := strip_zeros ds in
  let M := Z.of_nat (List.length sig) + E in
  match sig with
  | [] => if neg then neg_zero else zero
  | _ =>
      if 310 <? M then (if neg then neg_infinity else infinity)
      else if M <? -330 then (if neg then neg_zero else zero)
      else if 0 <=? E then Num.of_ratio neg (digits_value sig * 10 ^ E) 1
      else Num.of_ratio neg (digits_value sig) (10 ^ (- E))
  end.

(** StrUnsignedDecimalLiteral *)
Definition unsigned_decimal (neg : bool) (s : string) : float :=
  if String.eqb s "Infinity" then (if neg then neg_infinity else infinity)
  else
    let (d1, r1) := span_digits s in
    let (d2, r2) :=
      match r1 with
      | String "." r => span_digits r
      | _ => ([], r1)
      end in
    match (d1 ++ d2)%list with
    | [] => nan
    | ds =>
        match parse_exponent r2 with
        | Some e => decimal_value neg ds (e - Z.of_nat (List.length d2))
        | None => nan
        end
    end.

(** StringToNumber: [Number(s)] for a string [s]. *)
Definition StringToNumber (s : string) : float :=
  match trim s with
  | EmptyString => zero
  | String "0" (String c r) as t =>
      if (Ascii.eqb c "x" || Ascii.eqb c "X")%bool then radix_literal 16 r
      else if (Ascii.eqb c "o" || Ascii.eqb c "O")%bool then radix_literal 8 r
      else if (Ascii.eqb c "b" || Ascii.eqb c "B")%bool then radix_literal 2 r
      else unsigned_decimal false t
  | String "+" r => unsigned_decimal false r
  | String "-" r => unsigned_decimal true r
  | t => unsigned_decimal false t
  end.

(** *** Number::toString, radix 10 *)

Definition pow10 (n : Z) : Z * Z :=
  if 0 <=? n then (10 ^ n, 1) else (1, 10 ^ (- n)).

Definition pow2 (n : Z) : Z * Z :=
  if 0 <=? n then (2 ^ n, 1) else (1, 2 ^ (- n)).

Section Shortest.

(** The float is [m * 2^e]; with [b = 2^(e-2)] it is [4m * b], and it is the
    float nearest to every real between [lo4 * b] and [hi4 * b]. *)
Variables (m e : Z).

Let b := pow2 (e - 2).
Let x4 := 4 * m.
Let hi4 := 4 * m + 2.
Let lo4 := if (m =? 2 ^ 52) && (-1074 <? e) then 4 * m - 1 else 4 * m - 2.
Let closed := Z.even m.

(** compare [s * 10^p] with [N * b] *)
Definition cmp_scaled (s p N : Z) : comparison :=
  let (pn, pd) := pow10 p in
  (s * pn * snd b ?= N * fst b * pd).

Definition in_interval (s p : Z) : bool :=
  match cmp_scaled s p lo4, cmp_scaled s p hi4 with
  | Gt, Lt => true
  | Eq, Lt | Gt, Eq => closed
  | _, _ => false
  end.

(** the least [n] from [n0] on with [x < 10^n] *)
Fixpoint find_n (fuel : nat) (n0 : Z) : Z :=
  match fuel with
  | O => n0
  | S f => match cmp_scaled 1 n0 x4 with
           | Gt => n0
           | _ => find_n f (n0 + 1)
           end
  end.

(** the [k]-digit decimal nearest to [x] inside the interval, if any *)
Definition candidate (n k : Z) : option (Z * Z) :=
  let p := n - k in
  let (pn, pd) := pow10 p in
  let s_lo := (x4 * fst b * pd) / (snd b * pn) in
  let s_hi := s_lo + 1 in
  let pick_s :=
    match in_interval s_lo p, in_interval s_hi p with
    | true, false => Some s_lo
    | false, true => Some s_hi
    | false, false => None
    | true, true =>
        match cmp_scaled (s_lo + s_hi) p (2 * x4) with
        | Lt => Some s_hi
        | Gt => Some s_lo
        | Eq => Some (if Z.even s_lo then s_lo else s_hi)
        end
    end in
  match pick_s with
  | Some s => if s =? 10 ^ k then Some (10 ^ (k - 1), n + 1) else Some (s, n)
  | None => None
  end.

Fixpoint shortest (fuel : nat) (n k : Z) : Z * Z * Z :=
  match fuel with
  | O => (0, n, k)
  | S f => match candidate n k with
           | Some (s, n') => (s, n', k)
           | None => shortest f n (k + 1)
           end
  end.

End Shortest.

Definition digits_of (z : Z) : string :=
  NilZero.string_of_uint (N.to_uint (Z.to_N z)).

Definition zeros (n : Z) : string := repeat_string (Z.to_nat n) "0"%char.

(** the digits [ds] (there are [k]) with the decimal point after [n] *)
Definition layout (ds : string) (k n : Z) : string :=
  if (k <=? n) && (n <=? 21) then (ds ++ zeros (n - k))%string
  else if (0 <? n) && (n <=? 21) then
    (substring 0 (Z.to_nat n) ds ++ "." ++
     substring (Z.to_nat n) (Z.to_nat (k - n)) ds)%string
  else if (-6 <? n) && (n <=? 0) then ("0." ++ zeros (- n) ++ ds)%string
  else
    let sg := if n - 1 <? 0 then "-" else "+" in
    let ex := (sg ++ digits_of (Z.abs (n - 1)))%string in
    if k =? 1 then (ds ++ "e" ++ ex)%string
    else (substring 0 1 ds ++ "." ++ substring 1 (Z.to_nat (k - 1)) ds
          ++ "e" ++ ex)%string.

(** [String(x)] for a number [x]. *)
Definition toString (x : float) : string :=
  match Prim2SF x with
  | S754_nan => "NaN"
  | S754_zero _ => "0"
  | S754_infinity s => if s then "-Infinity" else "Infinity"
  | S754_finite s m e =>
      let n := find_n (Z.pos m) e 640 (-330) in
      let '(d, n', k) := shortest (Z.pos m) e 17 n 1 in
      ((if s then "-" else "") ++ layout (digits_of d) k n')%string
  end.

End NumText.

(** [Number.isFinite] on a number *)
Definition isFinite (x : float) : bool := is_finite x.

(** ** Values

    [Loose = Record<string, unknown>]: what [res.json()] yields, and
    [undefined].  An object is the list of its own enumerable properties in
    enumeration order; a key is looked up among the own properties (the
    first binding of a key is the property).  [k in o] and [o[k]] are
    modelled on these own properties: the members that an object inherits
    from [Object.prototype] and an array from [Array.prototype] are left
    out.  No key that the program names is such a member ([inherited_member]
    below lists them), so every look-up under a fixed key is exact.  One key
    is taken from the data: the criterion name looked up in the weights map.
    There an inherited member is a function or a prototype object, whose
    number is NaN or, for [__proto__] on an array, 0: never a finite
    positive number, so the recompute helpers use the weight 1 as they do
    for a missing entry.  [normItem] stores any finite number that it finds
    in the map, so it differs from this model in one case: the map is an
    array and the criterion is named [__proto__] (it stores 0).  The
    statements on [pick] are made for keys that name no inherited member,
    those on the stored weight for an own entry of the map. *)

Inductive Value : Type :=
| VUndef
| VNull
| VBool (b : bool)
| VNum (n : float)
| VStr (s : string)
| VArr (xs : list Value)
| VObj (kvs : list (string * Value)).

Definition Loose := Value.

Fixpoint assoc {A} (k : string) (kvs : list (string * A)) : option A :=
  match kvs with
  | [] => None
  | (k', v) :: r => if String.eqb k k' then Some v else assoc k r
  end.

Fixpoint index_from {A} (i : nat) (xs : list A) : list (string * A) :=
  match xs with
  | [] => []
  | x :: r => (string_of_nat i, x) :: index_from (S i) r
  end.

Fixpoint chars (s : string) : list Value :=
  match s with
  | EmptyString => []
  | String c r => VStr (String c EmptyString) :: chars r
  end.

(** [typeof v === "object"] *)
Definition typeof_object (v : Value) : bool :=
  match v with
  | VNull | VArr _ | VObj _ => true
  | _ => false
  end.

Definition typeof_string (v : Value) : bool :=
  match v with VStr _ => true | _ => false end.

Definition typeof_number (v : Value) : bool :=
  match v with VNum _ => true | _ => false end.

(** [Boolean(v)], [!!v], and [v] as a condition *)
Definition truthy (v : Value) : bool :=
  match v with
  | VUndef | VNull => false
  | VBool b => b
  | VNum n => negb (is_nan n || is_zero n)
  | VStr s => negb (is_empty s)
  | VArr _ | VObj _ => true
  end.

Definition nullish (v : Value) : bool :=
  match v with VUndef | VNull => true | _ => false end.

(** [a ?? b] *)
Definition coalesce (a b : Value) : Value := if nullish a then b else a.

(** The own properties that [Object.entries] enumerates. *)
Definition entries (v : Value) : list (string * Value) :=
  match v with
  | VObj kvs => kvs
  | VArr xs => index_from 0 xs
  | VStr s => index_from 0 (chars s)
  | _ => []
  end.

(** The own properties: those of [entries] and the [length] of an array or
    of a string. *)
Definition own_property (v : Value) (k : string) : option Value :=
  match v with
  | VObj kvs => assoc k kvs
  | VArr xs =>
      match assoc k (index_from 0 xs) with
      | Some x => Some x
      | None => if String.eqb k "length"
                then Some (VNum (Num.of_nat (List.length xs))) else None
      end
  | VStr s =>
      match assoc k (index_from 0 (chars s)) with
      | Some x => Some x
      | None => if String.eqb k "length"
                then Some (VNum (Num.of_nat (String.length s))) else None
      end
  | _ => None
  end.

(** [Object.entries(v)] and [Object.keys(v)] *)
Definition Object_entries (v : Value) : outcome (list (string * Value)) :=
  if nullish v then Throw TypeError else Ok (entries v).

Definition Object_keys (v : Value) : outcome (list string) :=
  es <- Object_entries v ;; Ok (map fst es).

(** [k in o], among the own properties *)
Definition has_property (k : string) (o : Value) : outcome bool :=
  match o with
  | VArr _ | VObj _ =>
      Ok (match own_property o k with Some _ => true | None => false end)
  | _ => Throw TypeError
  end.

(** [o[k]] and [o.k], among the own properties *)
Definition get (o : Value) (k : string) : outcome Value :=
  if nullish o then Throw TypeError
  else Ok (match own_property o k with Some v => v | None => VUndef end).

(** [Array.isArray(v)] *)
Definition isArray (v : Value) : bool :=
  match v with VArr _ => true | _ => false end.

Definition elements (v : Value) : list Value :=
  match v with VArr xs => xs | _ => [] end.

(** ToString: an object whose own [toString] is not callable cannot be
    converted; an array is the join of its elements, [null] and [undefined]
    being empty.  The recursion into the arrays of an array is total here;
    an engine bounds it by its call stack, and the length of the joined
    string as well, so the statements on a conversion that returns are made
    for values that are not arrays. *)
Fixpoint ToString (v : Value) : outcome string :=
  match v with
  | VUndef => Ok "undefined"
  | VNull => Ok "null"
  | VBool b => Ok (if b then "true" else "false")
  | VNum n => Ok (NumText.toString n)
  | VStr s => Ok s
  | VArr xs =>
      ss <- (fix each (l : list Value) : outcome (list string) :=
               match l with
               | [] => Ok []
               | x :: r =>
                   s <- (if nullish x then Ok "" else ToString x) ;;
                   ss <- each r ;;
                   Ok (s :: ss)
               end) xs ;;
      Ok (join "," ss)
  | VObj kvs =>
      match assoc "toString" kvs with
      | Some _ => Throw TypeError
      | None => Ok "[object Object]"
      end
  end.

(** ToNumber: [Number(v)] *)
Definition ToNumber (v : Value) : outcome float :=
  match v with
  | VUndef => Ok nan
  | VNull => Ok zero
  | VBool b => Ok (if b then one else zero)
  | VNum n => Ok n
  | VStr s => Ok (NumText.StringToNumber s)
  | VArr _ | VObj _ => s <- ToString v ;; Ok (NumText.StringToNumber s)
  end.

(** ** src/lib/grading.ts *)

(** [pick]: [for (const k of keys) if (k in o) return o[k]; return undefined] *)
Fixpoint pick (o : Loose) (keys : list string) : outcome Value :=
  match keys with
  | [] => Ok VUndef
  | k :: ks =>
      b <- has_property k o ;;
      if b then get o k else pick o ks
  end.

(** [toNum]: [const n = Number(v); return Number.isFinite(n) ? n : def] *)
Definition toNum (v : Value) (def : float) : outcome float :=
  n <- ToNumber v ;;
  Ok (if isFinite n then n else def).

(** [toStr] *)
Definition toStr (v : Value) : option string :=
  match v with
  | VStr s => Some s
  | VNum n => Some (NumText.toString n)
  | VBool b => Some (if b then "true" else "false")
  | _ => None
  end.

(** ** src/types/grading.ts *)

Record RubricScore : Type := {
  criterion : string;
  score : float;
  weight : option float;
  comment : option string
}.

Record GradeResponse : Type := {
  overall_score : float;
  overall_comment : string;
  rubric_scores : option (list RubricScore);
  reference_answer : option string;
  reference_answer_generated : option bool;
  weighted_overall : option float;
  weights_used : option Value
}.

Record ItemGradeResult : Type := {
  item_overall_score : float;
  item_weighted_overall : option float;
  feedback : string;
  item_rubric_scores : option (list RubricScore)
}.

Record BatchItem : Type := {
  id : string;
  file : string;
  ok : bool;
  result : option ItemGradeResult;
  error : option string
}.

Record BatchSummary : Type := {
  avg : float;
  min : float;
  max : float;
  stdev : float;
  pass_rate : float
}.

Record ReportFiles : Type := {
  txt : option string;
  csv : option string
}.

Record BatchGradeResponse : Type := {
  count : float;
  success_count : float;
  fail_count : float;
  rubric_used : list string;
  batch_weights_used : option Value;
  batch_reference_answer : string;
  batch_reference_answer_generated : bool;
  items : list BatchItem;
  summary : option BatchSummary;
  report_files : option ReportFiles
}.

(** ** src/App.tsx: the normalizers *)

Definition name_aliases : list string :=
  ["criterion"; "item"; "name"; "title"; "dimension"; "aspect"; "label"].
Definition weight_aliases : list string := ["weight"; "w"; "weighting"].
Definition score_aliases : list string := ["score"; "points"; "value"].
Definition comment_aliases : list string :=
  ["comment"; "feedback"; "reason"; "explanation"; "notes"].

(** [a || b] on strings *)
Definition or_else (a b : string) : string := if is_empty a then b else a.

(** [s ?? ""] on [string | undefined] *)
Definition str_or_empty (s : option string) : string :=
  match s with Some x => x | None => "" end.

(** The loop of [normItem]:
    [for (const [k, v] of Object.entries(it))
       if (typeof v === "string" && k !== "comment") { fallback = v.trim(); break; }] *)
Fixpoint first_string_field (es : list (string * Value)) : string :=
  match es with
  | [] => ""
  | (k, v) :: r =>
      match v with
      | VStr x => if negb (String.eqb k "comment") then trim x
                  else first_string_field r
      | _ => first_string_field r
      end
  end.

(** [raw.weights_used && typeof raw.weights_used === "object" ? raw.weights_used : undefined] *)
Definition weights_map (raw : Loose) : outcome (option Value) :=
  wu <- get raw "weights_used" ;;
  Ok (if truthy wu && typeof_object wu then Some wu else None).

Section Normalizers.

Variable userRubricNames : list string.

Section Items.

Variable weightsUsedMap : option Value.

(** The criterion name of [normItem]. *)
Definition item_name (it : Loose) (idx : nat) : outcome string :=
  fromBackendRaw <- pick it name_aliases ;;
  let fromBackend :=
    match toStr fromBackendRaw with Some x => trim x | None => "" end in
  let fromUser := trim (nth idx userRubricNames "") in
  fallback <-
    (if is_empty fromBackend && is_empty fromUser
     then es <- Object_entries it ;; Ok (first_string_field es)
     else Ok "") ;;
  Ok (or_else fromBackend
        (or_else fromUser
           (or_else fallback ("Item " ++ string_of_nat (idx + 1))))).

(** The weight of [normItem]: the item's own, overridden by a finite entry
    of the map. *)
Definition item_weight (it : Loose) (name : string) : outcome float :=
  wraw <- pick it weight_aliases ;;
  base <- toNum wraw 1 ;;
  match weightsUsedMap with
  | Some m =>
      present <- has_property name m ;;
      if present then
        v <- get m name ;;
        w <- toNum v nan ;;
        Ok (if isFinite w then w else base)
      else Ok base
  | None => Ok base
  end.

Definition normItem (it : Loose) (idx : nat) : outcome RubricScore :=
  name <- item_name it idx ;;
  w <- item_weight it name ;;
  sraw <- pick it score_aliases ;;
  sc <- toNum sraw 0 ;;
  craw <- pick it comment_aliases ;;
  Ok {| criterion := name;
        score := sc;
        weight := Some w;
        comment := Some (str_or_empty (toStr craw)) |}.

End Items.

(** [normRubricItem] of [normalizeBatchResponse] repeats the body of
    [normItem] over the batch's global map. *)
Definition normRubricItem (weightsUsedMapGlobal : option Value) :=
  normItem weightsUsedMapGlobal.

(** [(Array.isArray(raw.rubric_scores) && raw.rubric_scores) ||
     (Array.isArray(raw.rubric) && raw.rubric) ||
     (Array.isArray(raw.details) && raw.details) || []] *)
Definition items_source (raw : Loose) : outcome (list Value) :=
  a <- get raw "rubric_scores" ;;
  if isArray a then Ok (elements a)
  else
    b <- get raw "rubric" ;;
    if isArray b then Ok (elements b)
    else
      c <- get raw "details" ;;
      if isArray c then Ok (elements c) else Ok [].

(** [raw.overall_score ?? raw.total_score ?? raw.score] *)
Definition overall_source (raw : Loose) : outcome Value :=
  a <- get raw "overall_score" ;;
  if nullish a then
    b <- get raw "total_score" ;;
    if nullish b then get raw "score" else Ok b
  else Ok a.

Definition number_or_undefined (v : Value) : option float :=
  match v with VNum n => Some n | _ => None end.

Definition normalizeGradeResponse (raw : Loose) : outcome GradeResponse :=
  weightsUsedMap <- weights_map raw ;;
  itemsSrc <- items_source raw ;;
  osrc <- overall_source raw ;;
  os <- toNum osrc 0 ;;
  oc <- pick raw ["feedback"; "overall_comment"; "summary"; "comment"] ;;
  rs <- mapiM (normItem weightsUsedMap) 0 itemsSrc ;;
  ra <- pick raw ["reference_answer"; "reference"; "ref_answer"] ;;
  g1 <- get raw "reference_answer_generated" ;;
  g2 <- get raw "generated_reference" ;;
  wo <- get raw "weighted_overall" ;;
  Ok {| overall_score := os;
        overall_comment := str_or_empty (toStr oc);
        rubric_scores := Some rs;
        reference_answer := toStr ra;
        reference_answer_generated := Some (truthy (coalesce g1 g2));
        weighted_overall := number_or_undefined wo;
        weights_used := weightsUsedMap |}.

(** One element of [rawItems.map(...)] in [normalizeBatchResponse]. *)
Definition normBatchItem (weightsUsedMapGlobal : option Value) (it : Loose)
  : outcome BatchItem :=
  vid <- get it "id" ;;
  vfile <- get it "file" ;;
  vok <- get it "ok" ;;
  let ok := truthy vok in
  r <- get it "result" ;;
  resultItem <-
    (if ok && truthy r && typeof_object r then
       rsv <- get r "rubric_scores" ;;
       rubricScores <-
         (if isArray rsv
          then l <- mapiM (normRubricItem weightsUsedMapGlobal) 0 (elements rsv) ;;
               Ok (Some l)
          else Ok None) ;;
       osv <- get r "overall_score" ;;
       os <- toNum osv 0 ;;
       wo <- get r "weighted_overall" ;;
       fb <- pick r ["feedback"; "overall_comment"; "comment"] ;;
       Ok (Some {| item_overall_score := os;
                   item_weighted_overall := number_or_undefined wo;
                   feedback := str_or_empty (toStr fb);
                   item_rubric_scores := rubricScores |})
     else Ok None) ;;
  ve <- get it "error" ;;
  let errorText :=
    if negb ok && negb (is_empty (str_or_empty (toStr ve)))
    then toStr ve else None in
  Ok {| id := str_or_empty (toStr vid);
        file := str_or_empty (toStr vfile);
        ok := ok;
        result := resultItem;
        error := errorText |}.

(** [raw.summary && typeof raw.summary === "object" ? raw.summary : undefined] *)
Definition summary_source (raw : Loose) : outcome (option Value) :=
  sv <- get raw "summary" ;;
  Ok (if truthy sv && typeof_object sv then Some sv else None).

Definition normSummary (summaryLoose : Value) : outcome BatchSummary :=
  va <- get summaryLoose "avg" ;; a <- toNum va 0 ;;
  vmi <- get summaryLoose "min" ;; mi <- toNum vmi 0 ;;
  vma <- get summaryLoose "max" ;; ma <- toNum vma 0 ;;
  vsd <- get summaryLoose "stdev" ;; sd <- toNum vsd 0 ;;
  vpr <- get summaryLoose "pass_rate" ;; pr <- toNum vpr 0 ;;
  Ok {| avg := a; min := mi; max := ma; stdev := sd;
        pass_rate := (pr * 100)%float |}.

(** [raw.rubric_used.map((x) => toStr(x)).filter(Boolean)] *)
Fixpoint nonempty_strings (xs : list Value) : list string :=
  match xs with
  | [] => []
  | x :: r =>
      match toStr x with
      | Some t => if is_empty t then nonempty_strings r
                  else t :: nonempty_strings r
      | None => nonempty_strings r
      end
  end.

Definition normalizeBatchResponse (raw : Loose) : outcome BatchGradeResponse :=
  vitems <- get raw "items" ;;
  let rawItems := if isArray vitems then elements vitems else [] in
  weightsUsedMapGlobal <- weights_map raw ;;
  its <- mapM (normBatchItem weightsUsedMapGlobal) rawItems ;;
  summaryLoose <- summary_source raw ;;
  sm <- match summaryLoose with
        | Some sl => x <- normSummary sl ;; Ok (Some x)
        | None => Ok None
        end ;;
  vru <- get raw "rubric_used" ;;
  let rubricUsed := if isArray vru then nonempty_strings (elements vru) else [] in
  vrf <- get raw "report_files" ;;
  vc <- get raw "count" ;;
  c <- toNum vc (Num.of_nat (List.length rawItems)) ;;
  vsc <- get raw "success_count" ;;
  sc <- toNum vsc 0 ;;
  vfc <- get raw "fail_count" ;;
  fc <- toNum vfc 0 ;;
  vra <- get raw "reference_answer" ;;
  vrg <- get raw "reference_answer_generated" ;;
  rf <- (if truthy vrf && typeof_object vrf
         then t <- get vrf "txt" ;; c <- get vrf "csv" ;;
              Ok (Some {| txt := toStr t; csv := toStr c |})
         else Ok None) ;;
  Ok {| count := c;
        success_count := sc;
        fail_count := fc;
        rubric_used := rubricUsed;
        batch_weights_used := weightsUsedMapGlobal;
        batch_reference_answer := str_or_empty (toStr vra);
        batch_reference_answer_generated := truthy vrg;
        items := its;
        summary := sm;
        report_files := rf |}.

End Normalizers.

(** ** SingleGradingCard.tsx and BatchGradingCard.tsx: the recompute helpers *)

Local Open Scope float_scope.

(** [!!weightsUsed && Object.keys(weightsUsed).length > 0] *)
Definition use_weights (weightsUsed : Value) : outcome bool :=
  if truthy weightsUsed
  then ks <- Object_keys weightsUsed ;; Ok (Nat.ltb 0 (List.length ks))
  else Ok false.

(** The weight [w] of one turn of the loop:
    [const rawW = useWeights ? Number(weightsUsed![s.criterion] ?? 1) : 1;
     const w = Number.isFinite(rawW) && rawW > 0 ? rawW : 1] *)
Definition effective_weight (useWeights : bool) (weightsUsed : Value)
  (s : RubricScore) : outcome float :=
  rawW <- (if useWeights
           then v <- get weightsUsed (criterion s) ;;
                ToNumber (coalesce v (VNum 1))
           else Ok 1) ;;
  Ok (if isFinite rawW && (0 <? rawW) then rawW else 1).

(** [Number.isFinite(s.score) ? s.score : 0] *)
Definition finite_score (s : RubricScore) : float :=
  if isFinite (score s) then score s else 0.

(** The loop: [sumW += w; sumScoreW += score * w]. *)
Fixpoint weighted_sums (useWeights : bool) (weightsUsed : Value)
  (scores : list RubricScore) (sumW sumScoreW : float)
  : outcome (float * float) :=
  match scores with
  | [] => Ok (sumW, sumScoreW)
  | s :: r =>
      w <- effective_weight useWeights weightsUsed s ;;
      weighted_sums useWeights weightsUsed r
        (sumW + w) (sumScoreW + finite_score s * w)
  end.

(** [Math.max(...scores.map((s) => Number.isFinite(s.score) ? s.score : 0))] *)
Definition max_score (scores : list RubricScore) : float :=
  Num.max (map finite_score scores).

(** [maxScore <= 1 ? 100 : 1] *)
Definition scale_of (scores : list RubricScore) : float :=
  if max_score scores <=? 1 then 100 else 1.

(** [Math.round(v * 10) / 10] *)
Definition round1 (v : float) : float := Num.round (v * 10) / 10.

Definition recomputeOverallManual (scores : list RubricScore)
  (weightsUsed : Value) : outcome float :=
  match scores with
  | [] => Ok 0
  | _ =>
      useWeights <- use_weights weightsUsed ;;
      sums <- weighted_sums useWeights weightsUsed scores 0 0 ;;
      let (sumW, sumScoreW) := sums in
      if sumW =? 0 then Ok 0
      else
        let avg := sumScoreW / sumW in
        let overall := avg * scale_of scores in
        Ok (round1 overall)
  end.

Definition recomputeOverallManualForItem (scores : list RubricScore)
  (weightsUsed : Value) : outcome float :=
  match scores with
  | [] => Ok 0
  | _ =>
      hasWeights <- use_weights weightsUsed ;;
      sums <- weighted_sums hasWeights weightsUsed scores 0 0 ;;
      let (sumW, sumScoreW) := sums in
      if sumW =? 0 then Ok 0
      else
        let avg := sumScoreW / sumW in
        Ok (Num.round (avg * scale_of scores * 10) / 10)
  end.

(** The loop of [recomputeBatchSummary]:
    [if (it.ok && it.result && typeof it.result.overall_score === "number")
       scores.push(it.result.overall_score)] *)
Fixpoint collect_scores (items : list BatchItem) : list float :=
  match items with
  | [] => []
  | it :: r =>
      match result it with
      | Some res =>
          if ok it && typeof_number (VNum (item_overall_score res))
          then item_overall_score res :: collect_scores r
          else collect_scores r
      | None => collect_scores r
      end
  end.

Definition zero_summary : BatchSummary :=
  {| avg := 0; min := 0; max := 0; stdev := 0; pass_rate := 0 |}.

Definition recomputeBatchSummary (items : list BatchItem)
  (passThreshold : string) : BatchSummary :=
  let scores := collect_scores items in
  match scores with
  | [] => zero_summary
  | _ =>
      let n := Num.of_nat (List.length scores) in
      let sum := fold_left add scores 0 in
      let avg := sum / n in
      let mn := Num.min scores in
      let mx := Num.max scores in
      let mean := avg in
      let stdev :=
        sqrt (fold_left (fun acc x => acc + (x - mean) * (x - mean)) scores 0 / n) in
      let th := NumText.StringToNumber passThreshold in
      let threshold := if isFinite th then th else 60 in
      let passCount :=
        Num.of_nat (List.length (filter (fun x => threshold <=? x) scores)) in
      let passRate := passCount / n * 100 in
      {| avg := round1 avg; min := mn; max := mx;
         stdev := round1 stdev; pass_rate := round1 passRate |}
  end.

(** ** A canonical result as a raw payload

    The object that [normalizeGradeResponse] returns, read again as a
    [Loose]: a field that is [undefined] is a property whose value is
    [undefined]. *)

Definition of_option {A} (f : A -> Value) (o : option A) : Value :=
  match o with Some a => f a | None => VUndef end.

Definition RubricScore_value (r : RubricScore) : Value :=
  VObj [("criterion", VStr (criterion r));
        ("score", VNum (score r));
        ("weight", of_option VNum (weight r));
        ("comment", of_option VStr (comment r))].

Definition GradeResponse_value (g : GradeResponse) : Loose :=
  VObj [("overall_score", VNum (overall_score g));
        ("overall_comment", VStr (overall_comment g));
        ("rubric_scores",
          of_option (fun l => VArr (map RubricScore_value l)) (rubric_scores g));
        ("reference_answer", of_option VStr (reference_answer g));
        ("reference_answer_generated",
          of_option VBool (reference_answer_generated g));
        ("weighted_overall", of_option VNum (weighted_overall g));
        ("weights_used", of_option (fun m => m) (weights_used g))].

(** ** Vocabulary of the statements *)

(** The value of [o[k]] on a value that is neither [null] nor [undefined]. *)
Definition prop (o : Value) (k : string) : Value :=
  match own_property o k with Some v => v | None => VUndef end.

(** The values that [k in o] accepts on its right. *)
Definition is_object (v : Value) : bool :=
  match v with VArr _ | VObj _ => true | _ => false end.




(** Sample data of the examples. *)
Definition mkScore (c : string) (sc w : float) : RubricScore :=
  {| criterion := c; score := sc; weight := Some w; comment := Some ""%string |}.

Definition positive_finite (x : float) : bool := isFinite x && (0 <? x).

(** The weight of a criterion as section 4.5 of the specification words it
    (not the code's): the override of the map when present, finite and
    positive; else 1 when no map is supplied; else the per-item weight when
    finite and positive; else 1. *)
Definition spec_effective_weight (weightsUsed : Value) (s : RubricScore)
  : float :=
  let own := match weight s with
             | Some w => if positive_finite w then w else 1
             | None => 1
             end in
  if nullish weightsUsed then 1
  else
    match own_property weightsUsed (criterion s) with
    | Some v =>
        match ToNumber v with
        | Ok n => if positive_finite n then n else own
        | Throw _ => own
        end
    | None => own
    end.

(** The rounding as section 4.5 of the specification words it (not the
    code's): to the nearest integer, a tie going away from zero. *)
Definition spec_round_half_away (x : float) : float :=
  if x <? 0 then - Num.round (- x) else Num.round x.

(** What [normalizeBatchResponse] makes of one raw item. *)
Definition batch_item_shape (it : Loose) (bi : BatchItem) : Prop :=
  ok bi = truthy (prop it "ok")
  /\ (result bi <> None
      <-> (ok bi && truthy (prop it "result")
           && typeof_object (prop it "result")) = true)
  /\ (ok bi = false -> result bi = None)
  /\ (ok bi = true -> error bi = None).

Definition graded (name : string) (x : float) : BatchItem :=
  {| id := name; file := name; ok := true;
     result := Some {| item_overall_score := x;
                        item_weighted_overall := Some x;
                        feedback := "";
                        item_rubric_scores := None |};
     error := None |}.

Definition failed (name : string) (msg : string) : BatchItem :=
  {| id := name; file := name; ok := false; result := None;
     error := Some msg |}.

(** A string that does not start with a space. *)
Definition no_lead (s : string) : Prop :=
  match s with
  | String c _ => is_space c = false
  | EmptyString => True
  end.

(** A name is canonical when trimming leaves it unchanged and it is not
    empty. *)
Definition canonical_name (s : string) : Prop :=
  trim s = s /\ is_empty s = false.

(** A weight that a second pass over the normalized item finds again. *)
Definition stable_weight (wm : option Value) (name : string) (w : float)
  : Prop :=
  isFinite w = true
  /\ forall it' : Loose,
       pick it' weight_aliases = Ok (VNum w) -> item_weight wm it' name = Ok w.

(** What the first pass establishes of a normalized item. *)
Definition canonical_item (wm : option Value) (r : RubricScore) : Prop :=
  exists w cm,
    weight r = Some w /\ comment r = Some cm
    /\ canonical_name (criterion r)
    /\ isFinite (score r) = true
    /\ stable_weight wm (criterion r) w.

Definition sample_payload : Loose :=
  VObj [("total_score"%string, VStr "85");
        ("summary"%string, VStr "Solid work");
        ("rubric"%string,
          VArr [VObj [("name"%string, VStr "  Clarity ");
                      ("points"%string, VNum 0.8);
                      ("w"%string, VNum 2);
                      ("reason"%string, VStr "clear")];
                VObj [("weight"%string, VNull);
                      ("value"%string, VNum 0.5)];
                VObj [("notes"%string, VStr " Method ");
                      ("score"%string, VNull)]]);
        ("reference"%string, VNum 42);
        ("generated_reference"%string, VNum 1);
        ("weighted_overall"%string, VNum 84.5);
        ("weights_used"%string,
          VObj [("Clarity"%string, VStr "3"); ("Item 2"%string, VStr "x")])].

Definition sample_result : GradeResponse :=
  {| overall_score := 85;
     overall_comment := "Solid work";
     rubric_scores :=
       Some [ {| criterion := "Clarity"; score := 0.8; weight := Some 3;
                 comment := Some "clear"%string |};
              {| criterion := "Item 2"; score := 0.5; weight := Some 0;
                 comment := Some ""%string |};
              {| criterion := "Method"; score := 0; weight := Some 1;
                 comment := Some " Method "%string |} ];
     reference_answer := Some "42"%string;
     reference_answer_generated := Some true;
     weighted_overall := Some 84.5;
     weights_used :=
       Some (VObj [("Clarity"%string, VStr "3"); ("Item 2"%string, VStr "x")]) |}.

(** ** src/lib/grading.ts: the rubric text *)

(** The callback of [data.map] in [getRubricNamesFromUser]: a string is
    itself, an object (guarded by [it && typeof it === "object"]) is the
    text of its first name alias, anything else is empty. *)
Definition rubric_entry_name (it : Value) : outcome string :=
  match it with
  | VStr x => Ok x
  | _ =>
      if truthy it && typeof_object it then
        v <- pick it name_aliases ;;
        Ok (str_or_empty (toStr v))
      else Ok ""%string
  end.

(** [.filter(Boolean)] on strings *)
Definition filter_nonempty (l : list string) : list string :=
  filter (fun x => negb (is_empty x)) l.

Section Rubric.

(** [JSON.parse]: a value, or a [SyntaxError]. *)
Variable JSON_parse : string -> outcome Value.

Definition tryParseJsonArray (text : string) : option (list Value) :=
  match JSON_parse text with
  | Ok data => if isArray data then Some (elements data) else None
  | Throw _ => None
  end.

(** The body of the [try] of [getRubricNamesFromUser]: the names, or
    nothing when the text is not an array. *)
Definition parsed_names (trimmed : string) : outcome (option (list string)) :=
  data <- JSON_parse trimmed ;;
  if isArray data then
    l <- mapM rubric_entry_name (elements data) ;;
    Ok (Some (filter_nonempty l))
  else Ok None.

Definition getRubricNamesFromUser (text : string) : list string :=
  let trimmed := trim text in
  if is_empty trimmed then []
  else
    match parsed_names trimmed with
    | Ok (Some names) => names
    | Ok None => []
    | Throw _ => []
    end.

Definition buildRubricField (rawText : string) : option string :=
  let trimmed := trim rawText in
  if is_empty trimmed then None
  else
    let fromJsonNames := getRubricNamesFromUser trimmed in
    if Nat.ltb 0 (List.length fromJsonNames)
    then Some (join ", " fromJsonNames)
    else Some trimmed.

End Rubric.

(** ** The review handlers *)






(** [applyManualReview] of [SingleGradingCard]: what it passes to
    [onResultChange], if anything. *)
Definition applyManualReview (result : option GradeResponse)
  (editedRubricScores : list RubricScore) (editedOverallComment : string)
  : outcome (option GradeResponse) :=
  match result with
  | None => Ok None
  | Some r =>
      newOverall <-
        recomputeOverallManual editedRubricScores
          (of_option (fun m => m) (weights_used r)) ;;
      Ok (Some {| overall_score := newOverall;
                  overall_comment := editedOverallComment;
                  rubric_scores := Some editedRubricScores;
                  reference_answer := reference_answer r;
                  reference_answer_generated := reference_answer_generated r;
                  weighted_overall := Some newOverall;
                  weights_used := weights_used r |})
  end.

(** [items.findIndex((it) => it.id === id)], [None] for -1 *)
Fixpoint findIndex (wanted : string) (its : list BatchItem) : option nat :=
  match its with
  | [] => None
  | it :: r =>
      if String.eqb (id it) wanted then Some O
      else match findIndex wanted r with
           | Some i => Some (S i)
           | None => None
           end
  end.

(** [newItems[idx] = updatedItem] for an index inside the array *)
Fixpoint replace_nth {A} (i : nat) (x : A) (l : list A) : list A :=
  match i, l with
  | _, [] => []
  | O, _ :: r => x :: r
  | S j, y :: r => y :: replace_nth j x r
  end.

(** [applyReviewForItem] of [BatchGradingCard]: what it passes to
    [onResultChange], if anything.  [current] is the [result] prop and
    [editingItemId] is [string | null]. *)
Definition applyReviewForItem (current : option BatchGradeResponse)
  (editingItemId : option string) (editedRubricScores : list RubricScore)
  (editedFeedback : string) (passThreshold : string)
  : outcome (option BatchGradeResponse) :=
  match current, editingItemId with
  | Some res, Some eid =>
      if is_empty eid then Ok None
      else
        match findIndex eid (items res) with
        | None => Ok None
        | Some idx =>
            match nth_error (items res) idx with
            | None => Ok None
            | Some item =>
                match result item with
                | None => Ok None
                | Some ir =>
                    newOverall <-
                      recomputeOverallManualForItem editedRubricScores
                        (of_option (fun m => m) (batch_weights_used res)) ;;
                    let updatedItem :=
                      {| id := id item; file := file item; ok := ok item;
                         result :=
                           Some {| item_overall_score := newOverall;
                                   item_weighted_overall := Some newOverall;
                                   feedback := editedFeedback;
                                   item_rubric_scores :=
                                     Some editedRubricScores |};
                         error := error item |} in
                    let newItems := replace_nth idx updatedItem (items res) in
                    let newSummary :=
                      recomputeBatchSummary newItems passThreshold in
                    Ok (Some {| count := count res;
                                success_count := success_count res;
                                fail_count := fail_count res;
                                rubric_used := rubric_used res;
                                batch_weights_used := batch_weights_used res;
                                batch_reference_answer :=
                                  batch_reference_answer res;
                                batch_reference_answer_generated :=
                                  batch_reference_answer_generated res;
                                items := newItems;
                                summary := Some newSummary;
                                report_files := report_files res |})
                end
            end
        end
  | _, _ => Ok None
  end.

(** ** BatchGradingCard.tsx: the selection of the student files *)

Module Upload.

(** A [File], by its name. *)
Record File : Type := { name : string }.

(** [String.prototype.toLowerCase] on the code units below 256: A-Z and the
    capital letters of Latin-1. *)
Definition lower_char (c : ascii) : ascii :=
  let n := nat_of_ascii c in
  if (Nat.leb 65 n && Nat.leb n 90)
     || (Nat.leb 192 n && Nat.leb n 214)
     || (Nat.leb 216 n && Nat.leb n 222)
  then ascii_of_nat (n + 32) else c.

Fixpoint toLowerCase (s : string) : string :=
  match s with
  | EmptyString => EmptyString
  | String c r => String (lower_char c) (toLowerCase r)
  end.

(** [s.endsWith(suffix)] *)
Definition endsWith (s suffix : string) : bool :=
  let n := String.length s in
  let m := String.length suffix in
  Nat.leb m n && String.eqb (substring (n - m) m s) suffix.

Definition is_zip (f : File) : bool :=
  endsWith (toLowerCase (name f)) ".zip".

(** The two pieces of state that the handlers set:
    [batchZipFile] and [batchStudentFiles] of [App]. *)
Record Selection : Type := {
  zipFile : option File;
  studentFiles : list File
}.

(** [handleStudentFilesUpload]: the selection after the event, and whether
    the alert was shown.  [files] is [e.target.files], a list or [null]. *)
Definition handleStudentFilesUpload (files : option (list File))
  (st : Selection) : Selection * bool :=
  match files with
  | None | Some [] => ({| zipFile := None; studentFiles := [] |}, false)
  | Some fileList =>
      match find is_zip fileList with
      | Some zipFileFound =>
          if Nat.ltb 1 (List.length fileList) then (st, true)
          else ({| zipFile := Some zipFileFound; studentFiles := [] |}, false)
      | None => ({| zipFile := None; studentFiles := fileList |}, false)
      end
  end.

Definition clearSelection (st : Selection) : Selection :=
  {| zipFile := None; studentFiles := [] |}.

(** A ZIP archive is never selected together with other files. *)
Definition exclusive (st : Selection) : Prop :=
  match zipFile st with
  | Some z => is_zip z = true /\ studentFiles st = []
  | None => Forall (fun f => is_zip f = false) (studentFiles st)
  end.

End Upload.

(** ** pdf/BatchSummaryPDF.tsx: the cells of the summary table *)

Module Pdf.

(** [key.length > 10 ? key.substring(0, 8) + ".." : key] *)
Definition header_cell (key : string) : string :=
  if Nat.ltb 10 (String.length key)
  then (substring 0 8 key ++ "..")%string else key.

(** [s.slice(-n)] *)
Definition slice_last (n : nat) (s : string) : string :=
  substring (String.length s - n) n s.

(** [item.file.length > 30 ? "..." + item.file.slice(-25) : item.file] *)
Definition file_cell (f : string) : string :=
  if Nat.ltb 30 (String.length f)
  then ("..." ++ slice_last 25 f)%string else f.

End Pdf.

(** ** Payloads on which no conversion throws *)

(** A value whose conversion to a number calls no other conversion: it is
    not an array, whose conversion joins the conversions of its elements,
    and not an object with an own property [toString]. *)
Definition simple (v : Value) : bool :=
  match v with
  | VArr _ => false
  | VObj kvs =>
      match assoc "toString" kvs with Some _ => false | None => true end
  | _ => true
  end.

(** Every own property of the value is simple. *)
Definition flat (o : Value) : bool :=
  forallb (fun kv => simple (snd kv)) (entries o).


Definition with_comment (r : RubricScore) (c : string) : RubricScore :=
  {| criterion := criterion r; score := score r; weight := weight r;
     comment := Some c |}.

(** What the aggregate reads of a criterion. *)
Definition name_and_score (r : RubricScore) : string * float :=
  (criterion r, score r).

(** An edit of the criteria that the review form allows: the same names and
    weights, finite scores, comments present. *)
Definition reviewed (r e : RubricScore) : Prop :=
  criterion e = criterion r /\ weight e = weight r
  /\ isFinite (score e) = true /\ comment e <> None.

(** The value of the first alias that is an own key, [undefined] when there
    is none: what [pick] returns on an object. *)
Fixpoint first_present (o : Value) (keys : list string) : Value :=
  match keys with
  | [] => VUndef
  | k :: ks =>
      match own_property o k with
      | Some v => v
      | None => first_present o ks
      end
  end.

(** The name that one entry of the rubric array contributes. *)
Definition entry_name (it : Value) : string :=
  match it with
  | VStr x => x
  | VArr _ | VObj _ => str_or_empty (toStr (first_present it name_aliases))
  | _ => ""%string
  end.

(** The item list that [normalizeGradeResponse] reads: the first of
    [rubric_scores], [rubric], [details] that is an array. *)
Definition items_of (raw : Loose) : list Value :=
  if isArray (prop raw "rubric_scores") then elements (prop raw "rubric_scores")
  else if isArray (prop raw "rubric") then elements (prop raw "rubric")
  else if isArray (prop raw "details") then elements (prop raw "details")
  else [].

(** An item that contributes a score to the batch statistics. *)
Definition scored (it : BatchItem) : bool :=
  ok it && match result it with Some _ => true | None => false end.

(** A raw batch item that [normalizeBatchResponse] can read: it is neither
    [null] nor [undefined], and when it is a success with a result object,
    the [overall_score] of the result is simple and the entries of its
    [rubric_scores], when that is an array, are objects or arrays whose
    properties are simple. *)
Definition readable_item (it : Loose) : Prop :=
  nullish it = false
  /\ (truthy (prop it "ok") && truthy (prop it "result")
      && typeof_object (prop it "result") = true ->
      simple (prop (prop it "result") "overall_score") = true
      /\ Forall (fun e => is_object e && flat e = true)
           (elements (prop (prop it "result") "rubric_scores"))).

(** * Properties *)

(** ** Tools *)

Lemma bind_Ok {A B} (r : outcome A) (k : A -> outcome B) (b : B) :
  bind r k = Ok b -> exists a, r = Ok a /\ k a = Ok b.
Proof.
  destruct r as [a|e]; simpl; intros H.
  - exists a. split; [reflexivity | exact H].
  - discriminate H.
Qed.

Ltac inv_bind H :=
  let a := fresh "x" in
  let Ha := fresh "E" in
  apply bind_Ok in H; destruct H as [a [Ha H]].

Ltac inv_ok H := injection H as H; try subst.

(** Two floats that a test tells apart are different. *)
Lemma float_neq_by (f : float -> bool) (a b : float) : f a <> f b -> a <> b.
Proof. intros H E. apply H. rewrite E. reflexivity. Qed.

Lemma Ok_neq_by {A} (f : A -> bool) (a b : A) : f a <> f b -> Ok a <> Ok b.
Proof. intros H E. apply H. injection E as E. rewrite E. reflexivity. Qed.

Lemma isFinite_one : isFinite 1 = true.
Proof. reflexivity. Qed.

Lemma isFinite_zero : isFinite 0 = true.
Proof. reflexivity. Qed.

(** ** The order of the floats

    [<?] and [<=?] are the comparisons of the floats' values; what follows
    is what the maximum of a list needs of them. *)

Ltac sf_cases :=
  repeat match goal with
         | H : context [Z.compare ?a ?b] |- _ => destruct (Z.compare_spec a b)
         | |- context [Z.compare ?a ?b] => destruct (Z.compare_spec a b)
         | H : context [Pos.compare_cont Eq ?a ?b] |- _ =>
             change (Pos.compare_cont Eq a b) with (Pos.compare a b) in H
         | |- context [Pos.compare_cont Eq ?a ?b] =>
             change (Pos.compare_cont Eq a b) with (Pos.compare a b)
         | H : context [Pos.compare ?a ?b] |- _ => destruct (Pos.compare_spec a b)
         | |- context [Pos.compare ?a ?b] => destruct (Pos.compare_spec a b)
         end;
  simpl in *; try congruence; try lia.

Lemma SF_lt_le_trans (A B C : spec_float) :
  SFltb A B = true -> SFleb B C = true -> SFleb A C = true.
Proof.
  unfold SFltb, SFleb, SFcompare.
  destruct A as [sa|sa| |sa ma ea], B as [sb|sb| |sb mb eb],
           C as [sc|sc| |sc mc ec];
    try destruct sa; try destruct sb; try destruct sc;
    intros H1 H2; try discriminate H1; try discriminate H2;
    try reflexivity; sf_cases.
Qed.

Lemma SF_eq_cases (A B : spec_float) :
  A <> S754_nan -> B <> S754_nan ->
  SFltb A B = false -> SFltb B A = false -> SFcompare A B = Some Eq.
Proof.
  unfold SFltb, SFcompare.
  destruct A as [sa|sa| |sa ma ea], B as [sb|sb| |sb mb eb];
    try destruct sa; try destruct sb;
    intros HA HB H1 H2; try discriminate H1; try discriminate H2;
    try reflexivity; try (contradiction HA; reflexivity);
    try (contradiction HB; reflexivity); sf_cases.
Qed.

Lemma SF_eq_leb (A B C : spec_float) :
  SFcompare A B = Some Eq -> SFleb A C = SFleb B C.
Proof.
  unfold SFleb, SFcompare.
  destruct A as [sa|sa| |sa ma ea], B as [sb|sb| |sb mb eb],
           C as [sc|sc| |sc mc ec];
    try destruct sa; try destruct sb; try destruct sc;
    intros H1; try discriminate H1;
    try reflexivity; sf_cases.
Qed.

Lemma is_nan_SF (a : float) : is_nan a = false -> Prim2SF a <> S754_nan.
Proof.
  unfold is_nan. rewrite eqb_spec. intros H E. rewrite E in H.
  discriminate H.
Qed.

Lemma isFinite_not_nan (a : float) : isFinite a = true -> is_nan a = false.
Proof.
  unfold isFinite, is_finite. destruct (is_nan a); [discriminate | reflexivity].
Qed.

Lemma max2_not_nan (a b : float) :
  is_nan a = false -> is_nan b = false -> is_nan (Num.max2 a b) = false.
Proof.
  intros Ha Hb. unfold Num.max2. rewrite Ha, Hb. simpl.
  destruct (a <? b); [exact Hb |].
  destruct (b <? a); [exact Ha |].
  destruct (get_sign a); assumption.
Qed.

(** The greater of two numbers is at most [c] exactly when both are. *)
Lemma max2_leb (a b c : float) :
  is_nan a = false -> is_nan b = false ->
  (Num.max2 a b <=? c) = (a <=? c) && (b <=? c).
Proof.
  intros Ha Hb. unfold Num.max2. rewrite Ha, Hb. simpl.
  rewrite !ltb_spec.
  destruct (SFltb (Prim2SF a) (Prim2SF b)) eqn:L1.
  - rewrite !leb_spec.
    destruct (SFleb (Prim2SF b) (Prim2SF c)) eqn:L;
      [| rewrite andb_false_r; reflexivity].
    rewrite (SF_lt_le_trans _ _ _ L1 L). reflexivity.
  - destruct (SFltb (Prim2SF b) (Prim2SF a)) eqn:L2.
    + rewrite !leb_spec.
      destruct (SFleb (Prim2SF a) (Prim2SF c)) eqn:L; [| reflexivity].
      rewrite (SF_lt_le_trans _ _ _ L2 L). reflexivity.
    + pose proof (SF_eq_cases _ _ (is_nan_SF a Ha) (is_nan_SF b Hb) L1 L2) as E.
      pose proof (SF_eq_leb _ _ (Prim2SF c) E) as Q.
      destruct (get_sign a); rewrite !leb_spec, Q, andb_diag; reflexivity.
Qed.

(** [Math.max] of numbers is at most [c] exactly when each of them is. *)
Lemma max_leb_all (xs : list float) (acc c : float) :
  is_nan acc = false ->
  Forall (fun x => is_nan x = false) xs ->
  (fold_left Num.max2 xs acc <=? c)
  = (acc <=? c) && forallb (fun x => x <=? c) xs.
Proof.
  intros Ha F. revert acc Ha.
  induction F as [|x r Hx _ IH]; intros acc Ha; simpl.
  - rewrite andb_true_r. reflexivity.
  - rewrite IH by (apply max2_not_nan; assumption).
    rewrite max2_leb by assumption. rewrite andb_assoc. reflexivity.
Qed.

(** ** Sanity checks of the built-in conversions *)

Example round_samples :
  map Num.round [2.5; -2.5; 666.6666666666667; -0.2; 0.49999999999999994; 4503599627370497; 0.5; -0.5; -0.6]
  = [3; -2; 667; neg_zero; 0; 4503599627370497; 1; neg_zero; -1].
Proof. vm_compute. reflexivity. Qed.

Example StringToNumber_samples :
  map NumText.StringToNumber
    ["85"; " 0.1 "; "66.7"; "1e21"; "5e-324"; "1.7976931348623157e308"; "1.7976931348623159e308";
     "2.4703282292062327e-324"; "2.4703282292062328e-324"; "-0"; ".5"; "5."; "0x1F"; "-Infinity";
     "0.30000000000000004"; "9007199254740993"; "1e-400"; "123456789012345678901234567890";
     "2.2250738585072014e-308"; "0b101"; "1E+2"; "0.000001"; ""; "60.0"]
  = [85; 0.1; 66.7; 1e21; 5e-324; 1.7976931348623157e308; infinity;
     0; 5e-324; neg_zero; 0.5; 5; 31; neg_infinity;
     0.30000000000000004; 9007199254740992; 0; 123456789012345678901234567890;
     2.2250738585072014e-308; 5; 100; 0.000001; 0; 60].
Proof. vm_compute. reflexivity. Qed.

Example StringToNumber_nan :
  map (fun s => is_nan (NumText.StringToNumber s))
    ["abc"; "."; "1e"; "-0x10"; "1 2"; "Infinityx"; "+-1"; "0x"; "1e+"; "[object Object]"; "1,2"]
  = [true; true; true; true; true; true; true; true; true; true; true].
Proof. vm_compute. reflexivity. Qed.

Example toString_samples :
  map NumText.toString
    [0; 1; 66.7; 0.1; 1e21; 1e20; 123456789012345680000; 5e-324; 0.000001; 0.0000001; -2.5; 100;
     0.30000000000000004; 1.7976931348623157e308; nan; neg_infinity; neg_zero; 9.5; 1.5e-7;
     4503599627370496; 2.2250738585072014e-308; 85.25; 0.5; 1e-7; 123e-20; 9007199254740992]
  = ["0"; "1"; "66.7"; "0.1"; "1e+21"; "100000000000000000000"; "123456789012345680000"; "5e-324";
     "0.000001"; "1e-7"; "-2.5"; "100";
     "0.30000000000000004"; "1.7976931348623157e+308"; "NaN"; "-Infinity"; "0"; "9.5"; "1.5e-7";
     "4503599627370496"; "2.2250738585072014e-308"; "85.25"; "0.5"; "1e-7"; "1.23e-18"; "9007199254740992"]%string.
Proof. vm_compute. reflexivity. Qed.

(** ** The aggregate: [recomputeOverallManual], [recomputeOverallManualForItem] *)

(** The two copies of the aggregate compute the same number. *)
Lemma recomputeOverallManualForItem_eq scores weightsUsed :
  recomputeOverallManualForItem scores weightsUsed
  = recomputeOverallManual scores weightsUsed.
Proof. reflexivity. Qed.

(** C1, as stated, fails: with no map the two criteria weigh the same, and
    the aggregate of scores 1 and 0 is 50, not 66.7. *)
Lemma C1_counterexample :
  recomputeOverallManual [mkScore "c1" 1 2; mkScore "c2" 0 1] VUndef = Ok 50
  /\ recomputeOverallManualForItem [mkScore "c1" 1 2; mkScore "c2" 0 1] VUndef
     = Ok 50
  /\ Ok 50 <> Ok 66.7.
Proof.
  repeat split; try (vm_compute; reflexivity).
  apply (Ok_neq_by (fun x => x <? 60)). vm_compute. discriminate.
Qed.

(** C1, amended: for the criteria [{score:1, weight:2}, {score:0, weight:1}]
    and no map ([undefined] or [null]) the aggregate is 50, whatever the
    per-item weights, names and comments are: every weight is 1, the mean
    is (1 + 0) / 2 = 0.5, it is scaled by 100 since the maximum score 1 is
    <= 1, and rounded to one decimal. *)
Theorem C1_no_map_all_weights_one :
  forall (c1 c2 : string) (w1 w2 : option float) (m1 m2 : option string),
    let scores :=
      [ {| criterion := c1; score := 1; weight := w1; comment := m1 |};
        {| criterion := c2; score := 0; weight := w2; comment := m2 |} ] in
    recomputeOverallManual scores VUndef = Ok 50
    /\ recomputeOverallManual scores VNull = Ok 50
    /\ recomputeOverallManualForItem scores VUndef = Ok 50
    /\ recomputeOverallManualForItem scores VNull = Ok 50.
Proof.
  intros. repeat split; vm_compute; reflexivity.
Qed.

(** C2, as stated, fails: with the map [{A: 1}], the criterion [B] whose
    own weight is 3 weighs 1, where the claim makes it 3; the aggregate of
    [A] = 1 and [B] = 0 is 50, where the claim's weights give 25. *)
Lemma C2_counterexample :
  let m := VObj [("A"%string, VNum 1)] in
  let a := mkScore "A" 1 1 in
  let b := mkScore "B" 0 3 in
  use_weights m = Ok true
  /\ effective_weight true m b = Ok 1
  /\ spec_effective_weight m b = 3
  /\ 1 <> 3
  /\ recomputeOverallManual [a; b] m = Ok 50.
Proof.
  repeat split; try (vm_compute; reflexivity).
  apply (float_neq_by (fun x => x <? 2)). vm_compute. discriminate.
Qed.

(** The sums of the loop, from the weights of the criteria. *)
Lemma weighted_sums_spec (uw : bool) (wu : Value) (scores : list RubricScore) :
  forall (sw ssw r1 r2 : float),
    weighted_sums uw wu scores sw ssw = Ok (r1, r2) ->
    exists ws : list float,
      Forall2 (fun s w => effective_weight uw wu s = Ok w) scores ws
      /\ r1 = fold_left (fun acc w => acc + w) ws sw
      /\ r2 = fold_left
                (fun acc p =>
                   acc + (if isFinite (score (fst p)) then score (fst p)
                          else 0) * snd p)
                (combine scores ws) ssw.
Proof.
  induction scores as [|s r IH]; simpl; intros sw ssw r1 r2 H.
  - inv_ok H. exists []. split; [constructor | split; reflexivity].
  - apply bind_Ok in H. destruct H as [w [Hw H]].
    destruct (IH _ _ _ _ H) as [ws [F [E1 E2]]].
    exists (w :: ws). split; [constructor; assumption |].
    split; [exact E1 | exact E2].
Qed.

(** The scale test: the maximum is <= 1 exactly when every score is. *)
Lemma max_score_small (scores : list RubricScore) :
  (max_score scores <=? 1)
  = forallb (fun s => (if isFinite (score s) then score s else 0) <=? 1)
      scores.
Proof.
  unfold max_score, Num.max.
  rewrite max_leb_all.
  - change (neg_infinity <=? 1) with true. cbn [andb].
    induction scores as [|s r IH]; simpl; [reflexivity |].
    rewrite IH. reflexivity.
  - reflexivity.
  - apply Forall_forall. intros x Hx. apply in_map_iff in Hx.
    destruct Hx as [s [<- _]]. apply isFinite_not_nan. unfold finite_score.
    destruct (isFinite (score s)) eqn:E; [exact E | reflexivity].
Qed.

(** The aggregate of a non-empty list, from the weights of its criteria. *)
Lemma recompute_spec (scores : list RubricScore) (wu : Value) (r : float) :
  scores <> [] ->
  recomputeOverallManual scores wu = Ok r ->
  exists (uw : bool) (ws : list float),
    use_weights wu = Ok uw
    /\ Forall2 (fun s w => effective_weight uw wu s = Ok w) scores ws
    /\ r = (let sumW := fold_left (fun acc w => acc + w) ws 0 in
            let sumScoreW :=
              fold_left
                (fun acc p =>
                   acc + (if isFinite (score (fst p)) then score (fst p)
                          else 0) * snd p)
                (combine scores ws) 0 in
            let small :=
              forallb
                (fun s => (if isFinite (score s) then score s else 0) <=? 1)
                scores in
            if sumW =? 0 then 0
            else Num.round
                   (sumScoreW / sumW * (if small then 100 else 1) * 10) / 10).
Proof.
  intros Hne H. unfold recomputeOverallManual in H.
  destruct scores as [|s0 rest]; [contradiction Hne; reflexivity |].
  apply bind_Ok in H. destruct H as [uw [Hu H]].
  apply bind_Ok in H. destruct H as [[sumW sumScoreW] [Hs H]].
  destruct (weighted_sums_spec uw wu (s0 :: rest) _ _ _ _ Hs)
    as [ws [F [E1 E2]]].
  exists uw, ws. split; [exact Hu | split; [exact F |]].
  cbv zeta. rewrite <- E1, <- E2, <- max_score_small.
  destruct (sumW =? 0); inv_ok H; reflexivity.
Qed.

Lemma use_weights_spec (wu : Value) (uw : bool) :
  use_weights wu = Ok uw ->
  uw = truthy wu && Nat.ltb 0 (List.length (entries wu))
  /\ (uw = true -> nullish wu = false).
Proof.
  unfold use_weights, Object_keys, Object_entries.
  destruct (truthy wu) eqn:T.
  - assert (Hn : nullish wu = false)
      by (destruct wu; try discriminate T; reflexivity).
    rewrite Hn. cbn [bind]. rewrite length_map. intros H. inv_ok H.
    split; [reflexivity | intros _; reflexivity].
  - intros H. inv_ok H. split; [reflexivity | discriminate].
Qed.

(** C2, amended: the aggregate uses, for each criterion, the weight that
    [effective_weight] computes with [useWeights] true exactly when the map
    is supplied (truthy) and has a key.  That weight is the number of the
    map's entry under the criterion's name when the map is in use, the entry
    is there and is neither [null] nor [undefined], and its number is finite
    and positive; in every other case it is 1.  It is always finite and
    positive, and it depends on the criterion's name only: the criterion's
    own weight is never read. *)
Theorem C2_effective_weight :
  (forall (weightsUsed : Value) (useWeights : bool) (s : RubricScore),
      use_weights weightsUsed = Ok useWeights ->
      useWeights
      = truthy weightsUsed && Nat.ltb 0 (List.length (entries weightsUsed))
      /\ effective_weight useWeights weightsUsed s
         = match (if useWeights
                  then own_property weightsUsed (criterion s)
                  else None) with
           | Some v =>
               if nullish v then Ok 1
               else n <- ToNumber v ;;
                    Ok (if isFinite n && (0 <? n) then n else 1)
           | None => Ok 1
           end
      /\ (forall w, effective_weight useWeights weightsUsed s = Ok w ->
            isFinite w = true /\ (0 <? w) = true)
      /\ (forall s', criterion s' = criterion s ->
            effective_weight useWeights weightsUsed s'
            = effective_weight useWeights weightsUsed s))
  /\ (forall (scores : list RubricScore) (weightsUsed : Value) (r : float),
        scores <> [] ->
        recomputeOverallManual scores weightsUsed = Ok r ->
        recomputeOverallManualForItem scores weightsUsed = Ok r
        /\ exists (useWeights : bool) (ws : list float),
            use_weights weightsUsed = Ok useWeights
            /\ Forall2
                 (fun s w => effective_weight useWeights weightsUsed s = Ok w)
                 scores ws
            /\ r = (let sumW := fold_left (fun acc w => acc + w) ws 0 in
                    let sumScoreW :=
                      fold_left
                        (fun acc p =>
                           acc + (if isFinite (score (fst p))
                                  then score (fst p) else 0) * snd p)
                        (combine scores ws) 0 in
                    let small :=
                      forallb
                        (fun s =>
                           (if isFinite (score s) then score s else 0) <=? 1)
                        scores in
                    if sumW =? 0 then 0
                    else Num.round
                           (sumScoreW / sumW * (if small then 100 else 1) * 10)
                         / 10)).
Proof.
  split.
  - intros wu uw s Hu.
    destruct (use_weights_spec wu uw Hu) as [Euw Hn].
    split; [exact Euw |]. split; [| split].
    + unfold effective_weight. destruct uw; [| reflexivity].
      unfold get. rewrite (Hn eq_refl). cbn [bind]. unfold coalesce.
      destruct (own_property wu (criterion s)) as [v|]; [| reflexivity].
      destruct (nullish v); reflexivity.
    + intros w Hw. unfold effective_weight in Hw.
      apply bind_Ok in Hw. destruct Hw as [rawW [_ Hw]]. inv_ok Hw.
      destruct (isFinite rawW && (0 <? rawW)) eqn:T.
      * apply andb_prop in T. exact T.
      * split; reflexivity.
    + intros s' Hc. unfold effective_weight. rewrite Hc. reflexivity.
  - intros scores wu r Hne H. split; [exact H |].
    exact (recompute_spec scores wu r Hne H).
Qed.

Lemma C2_effective_weight_witness :
  let m := VObj [("A"%string, VNum 2); ("B"%string, VStr "x");
                 ("C"%string, VNull); ("D"%string, VNum (-3))] in
  let scores := [mkScore "A" 1 5; mkScore "B" 0 5; mkScore "C" 0 5;
                 mkScore "D" 0 5; mkScore "E" 0 5] in
  (effective_weight true m (mkScore "A" 1 5) = Ok 2
   /\ effective_weight true m (mkScore "B" 0 5) = Ok 1
   /\ effective_weight true m (mkScore "C" 0 5) = Ok 1
   /\ effective_weight true m (mkScore "D" 0 5) = Ok 1
   /\ effective_weight true m (mkScore "E" 0 5) = Ok 1)
  /\ (isFinite 2 = true /\ (0 <? 2) = true)
  /\ effective_weight true m (mkScore "A" 0 9)
     = effective_weight true m (mkScore "A" 1 5)
  /\ recomputeOverallManualForItem scores m = Ok 33.3
  /\ exists (useWeights : bool) (ws : list float),
      use_weights m = Ok useWeights
      /\ Forall2 (fun s w => effective_weight useWeights m s = Ok w) scores ws
      /\ 33.3 = (let sumW := fold_left (fun acc w => acc + w) ws 0 in
                 let sumScoreW :=
                   fold_left
                     (fun acc p =>
                        acc + (if isFinite (score (fst p))
                               then score (fst p) else 0) * snd p)
                     (combine scores ws) 0 in
                 let small :=
                   forallb
                     (fun s =>
                        (if isFinite (score s) then score s else 0) <=? 1)
                     scores in
                 if sumW =? 0 then 0
                 else Num.round
                        (sumScoreW / sumW * (if small then 100 else 1) * 10)
                      / 10).
Proof.
  pose (m := VObj [("A"%string, VNum 2); ("B"%string, VStr "x");
                   ("C"%string, VNull); ("D"%string, VNum (-3))]).
  pose (scores := [mkScore "A" 1 5; mkScore "B" 0 5; mkScore "C" 0 5;
                   mkScore "D" 0 5; mkScore "E" 0 5]).
  assert (U : use_weights m = Ok true) by reflexivity.
  split; [| split; [| split;
                       [| apply (proj2 C2_effective_weight scores m 33.3)]]].
  - split; [| split; [| split; [| split]]];
      match goal with
      | |- effective_weight true _ ?s = _ =>
          exact (proj1 (proj2 (proj1 C2_effective_weight m true s U)))
      end.
  - apply (proj1 (proj2 (proj2 (proj1 C2_effective_weight m true
                                    (mkScore "A" 1 5) U))) 2).
    reflexivity.
  - apply (proj2 (proj2 (proj2 (proj1 C2_effective_weight m true
                                    (mkScore "A" 1 5) U)))
             (mkScore "A" 0 9)).
    reflexivity.
  - discriminate.
  - vm_compute. reflexivity.
Defined.

(** C7, as stated, fails twice.  The scores 2 and -2.5 have the mean -0.25,
    not scaled since the maximum 2 is > 1; ten times the mean is the tie
    -2.5, which [Math.round] takes to -2, and the aggregate is -0.2;
    rounding the tie away from zero gives -3, and -0.3.  And the scores
    [Infinity] and 0.5 have the maximum raw score [Infinity], which is not
    <= 1, yet the mean 0.25 is multiplied by 100: the score that is not
    finite counts as 0 in the maximum as in the mean, and the aggregate is
    25, not 0.3. *)
Lemma C7_counterexample :
  let scores := [mkScore "A" 2 1; mkScore "B" (-2.5) 1] in
  let scores' := [mkScore "A" infinity 1; mkScore "B" 0.5 1] in
  (weighted_sums false VUndef scores 0 0 = Ok (2, -0.5)
   /\ scale_of scores = 1
   /\ -0.5 / 2 * 1 * 10 = -2.5
   /\ Num.round (-2.5) = -2
   /\ spec_round_half_away (-2.5) = -3
   /\ recomputeOverallManual scores VUndef = Ok (-0.2)
   /\ recomputeOverallManualForItem scores VUndef = Ok (-0.2)
   /\ -0.2 <> spec_round_half_away (-2.5) / 10)
  /\ (Num.max (map score scores') = infinity
      /\ (infinity <=? 1) = false
      /\ weighted_sums false VUndef scores' 0 0 = Ok (2, 0.5)
      /\ recomputeOverallManual scores' VUndef = Ok 25
      /\ recomputeOverallManualForItem scores' VUndef = Ok 25
      /\ Num.round (0.5 / 2 * 1 * 10) / 10 = 0.3
      /\ 25 <> 0.3).
Proof.
  split.
  - repeat split; try (vm_compute; reflexivity).
    apply (float_neq_by (fun x => x <? -0.25)). vm_compute. discriminate.
  - repeat split; try (vm_compute; reflexivity).
    apply (float_neq_by (fun x => x <? 1)). vm_compute. discriminate.
Qed.

(** [Math.round] on a float [x = sm / 2^(-e)] that is not an integer: the
    integer [n] with [n - 1/2 <= x < n + 1/2]. *)
Lemma round_half_up (x : float) (s : bool) (m : positive) (e : Z) :
  Prim2SF x = S754_finite s m e ->
  (e < 0)%Z ->
  let sm := (if s then Z.neg m else Z.pos m) in
  exists n : Z,
    ((2 * n - 1) * 2 ^ (- e) <= 2 * sm < (2 * n + 1) * 2 ^ (- e))%Z
    /\ Num.round x
       = if (n =? 0)%Z then (if s then neg_zero else zero) else Num.of_Z n.
Proof.
  intros Hx He sm.
  exists ((2 * sm + 2 ^ (- e)) / (2 * 2 ^ (- e)))%Z.
  assert (Hd : (0 < 2 ^ (- e))%Z) by (apply Z.pow_pos_nonneg; lia).
  split.
  - pose proof (Z.div_mod (2 * sm + 2 ^ (- e)) (2 * 2 ^ (- e))) as D.
    pose proof (Z.mod_pos_bound (2 * sm + 2 ^ (- e)) (2 * 2 ^ (- e))) as B.
    lia.
  - unfold Num.round. rewrite Hx.
    destruct (0 <=? e)%Z eqn:T; [apply Z.leb_le in T; lia |].
    reflexivity.
Qed.

(** C7, amended: on a non-empty list the aggregate is the weighted mean of
    the scores, a score that is not finite counting as 0, multiplied by 100
    exactly when every score so counted is <= 1, and by 1 otherwise; it is
    then brought to one decimal by [Math.round(v * 10) / 10].  That every
    number of a list is <= 1 is what [Math.max] of the list being <= 1
    means (for at most 1000 numbers, none of them NaN).  [Math.round] takes
    a tie towards +infinity, which is away from zero only for a value that
    is not negative. *)
Theorem C7_scale_and_rounding :
  (forall (scores : list RubricScore) (weightsUsed : Value) (r : float),
      scores <> [] ->
      recomputeOverallManual scores weightsUsed = Ok r ->
      recomputeOverallManualForItem scores weightsUsed = Ok r
      /\ exists (useWeights : bool) (ws : list float),
          use_weights weightsUsed = Ok useWeights
          /\ Forall2
               (fun s w => effective_weight useWeights weightsUsed s = Ok w)
               scores ws
          /\ r = (let sumW := fold_left (fun acc w => acc + w) ws 0 in
                  let sumScoreW :=
                    fold_left
                      (fun acc p =>
                         acc + (if isFinite (score (fst p))
                                then score (fst p) else 0) * snd p)
                      (combine scores ws) 0 in
                  let small :=
                    forallb
                      (fun s =>
                         (if isFinite (score s) then score s else 0) <=? 1)
                      scores in
                  if sumW =? 0 then 0
                  else Num.round
                         (sumScoreW / sumW * (if small then 100 else 1) * 10)
                       / 10))
  /\ (forall xs : list float,
        (List.length xs <= 1000)%nat ->
        Forall (fun x => is_nan x = false) xs ->
        (Num.max xs <=? 1) = forallb (fun x => x <=? 1) xs)
  /\ (forall (x : float) (s : bool) (m : positive) (e : Z),
        Prim2SF x = S754_finite s m e ->
        (e < 0)%Z ->
        exists n : Z,
          ((2 * n - 1) * 2 ^ (- e)
           <= 2 * (if s then Z.neg m else Z.pos m)
           < (2 * n + 1) * 2 ^ (- e))%Z
          /\ Num.round x
             = if (n =? 0)%Z then (if s then neg_zero else zero)
               else Num.of_Z n).
Proof.
  split; [| split].
  - intros scores wu r Hne H. split; [exact H |].
    exact (recompute_spec scores wu r Hne H).
  - intros xs _ F. unfold Num.max.
    rewrite (max_leb_all xs neg_infinity 1 eq_refl F). reflexivity.
  - intros x s m e Hx He. exact (round_half_up x s m e Hx He).
Qed.

Lemma C7_scale_and_rounding_witness :
  let scores := [mkScore "A" 2 1; mkScore "B" (-2.5) 1] in
  (recomputeOverallManualForItem scores VUndef = Ok (-0.2)
   /\ exists (useWeights : bool) (ws : list float),
       use_weights VUndef = Ok useWeights
       /\ Forall2 (fun s w => effective_weight useWeights VUndef s = Ok w)
            scores ws
       /\ -0.2 = (let sumW := fold_left (fun acc w => acc + w) ws 0 in
                  let sumScoreW :=
                    fold_left
                      (fun acc p =>
                         acc + (if isFinite (score (fst p))
                                then score (fst p) else 0) * snd p)
                      (combine scores ws) 0 in
                  let small :=
                    forallb
                      (fun s =>
                         (if isFinite (score s) then score s else 0) <=? 1)
                      scores in
                  if sumW =? 0 then 0
                  else Num.round
                         (sumScoreW / sumW * (if small then 100 else 1) * 10)
                       / 10))
  /\ (Num.max [0.5; 1; -3] <=? 1) = true
  /\ (Num.max [0.5; 80; 1] <=? 1) = false
  /\ (exists n : Z,
        ((2 * n - 1) * 2 ^ (- (-51))
         <= 2 * Z.neg 5629499534213120
         < (2 * n + 1) * 2 ^ (- (-51)))%Z
        /\ Num.round (-2.5)
           = if (n =? 0)%Z then neg_zero else Num.of_Z n).
Proof.
  split; [| split; [| split]].
  - apply (proj1 C7_scale_and_rounding
             [mkScore "A" 2 1; mkScore "B" (-2.5) 1] VUndef (-0.2)).
    + discriminate.
    + vm_compute. reflexivity.
  - apply (proj1 (proj2 C7_scale_and_rounding) [0.5; 1; -3]).
    + simpl. lia.
    + repeat constructor.
  - apply (proj1 (proj2 C7_scale_and_rounding) [0.5; 80; 1]).
    + simpl. lia.
    + repeat constructor.
  - apply (proj2 (proj2 C7_scale_and_rounding) (-2.5) true
             5629499534213120%positive (-51)%Z).
    + vm_compute. reflexivity.
    + lia.
Defined.

(** ** [pick] and the overall score *)

Lemma get_prop (o : Value) (k : string) :
  nullish o = false -> get o k = Ok (prop o k).
Proof. intros H. unfold get. rewrite H. reflexivity. Qed.

Lemma get_Ok_inv (o : Value) (k : string) (v : Value) :
  get o k = Ok v -> nullish o = false /\ v = prop o k.
Proof.
  unfold get, prop. destruct (nullish o); intros H; [discriminate H |].
  inv_ok H. split; reflexivity.
Qed.

Ltac inv_get :=
  repeat match goal with
         | H : get ?o ?k = Ok ?v |- _ =>
             apply get_Ok_inv in H;
             let N := fresh "Hnn" in destruct H as [N H]; subst v
         end.

Lemma has_property_object (o : Value) (k : string) :
  is_object o = true ->
  has_property k o
  = Ok (match own_property o k with Some _ => true | None => false end).
Proof. destruct o; simpl; intros H; try discriminate H; reflexivity. Qed.

Lemma get_object (o : Value) (k : string) :
  is_object o = true ->
  get o k = Ok (match own_property o k with Some v => v | None => VUndef end).
Proof. destruct o; simpl; intros H; try discriminate H; reflexivity. Qed.

Lemma pick_cons_present (o : Value) (k : string) (ks : list string) (v : Value) :
  is_object o = true ->
  own_property o k = Some v ->
  pick o (k :: ks) = Ok v.
Proof.
  intros Ho Hk. simpl.
  rewrite (has_property_object o k Ho), Hk. simpl.
  rewrite (get_object o k Ho), Hk. reflexivity.
Qed.

Lemma pick_cons_absent (o : Value) (k : string) (ks : list string) :
  is_object o = true ->
  own_property o k = None ->
  pick o (k :: ks) = pick o ks.
Proof.
  intros Ho Hk. simpl.
  rewrite (has_property_object o k Ho), Hk. reflexivity.
Qed.


Lemma pick_none_present (o : Value) (keys : list string) :
  is_object o = true ->
  (forall k, In k keys -> own_property o k = None) ->
  pick o keys = Ok VUndef.
Proof.
  intros Ho Habs. induction keys as [|k r IH].
  - reflexivity.
  - rewrite pick_cons_absent.
    + apply IH. intros k' Hin. apply Habs. right. exact Hin.
    + exact Ho.
    + apply Habs. left. reflexivity.
Qed.





(** ** Totality of the normalizers *)

(** C4 fails on the code: an entry of the item list that is [null], or that
    is not an object, makes [pick] throw ([k in o] needs an object), and a
    [null] entry of [items] makes [it.id] throw; the exception leaves the
    normalizer. *)
Theorem C4_null_entry_throws :
  forall names : list string,
    normalizeGradeResponse names
      (VObj [("rubric_scores"%string, VArr [VNull])]) = Throw TypeError
    /\ normalizeGradeResponse names
         (VObj [("overall_score"%string, VNum 90);
                ("rubric_scores"%string,
                  VArr [VObj [("criterion"%string, VStr "Clarity");
                              ("score"%string, VNum 1)];
                        VNum 5])]) = Throw TypeError
    /\ normalizeBatchResponse names
         (VObj [("items"%string, VArr [VNull])]) = Throw TypeError
    /\ normalizeBatchResponse names
         (VObj [("items"%string,
                  VArr [VObj [("ok"%string, VBool true);
                              ("result"%string,
                                VObj [("rubric_scores"%string,
                                        VArr [VNull])])]])])
       = Throw TypeError.
Proof.
  intros names. repeat split; vm_compute; reflexivity.
Qed.

(** ** The batch normalizer *)

Lemma mapM_Forall2 {A B} (f : A -> outcome B) (xs : list A) (ys : list B) :
  mapM f xs = Ok ys -> Forall2 (fun x y => f x = Ok y) xs ys.
Proof.
  revert ys. induction xs as [|x r IH]; simpl; intros ys H.
  - inv_ok H. constructor.
  - inv_bind H. inv_bind H. inv_ok H. constructor; [exact E | apply IH; exact E0].
Qed.

Lemma normBatchItem_shape (names : list string) (wm : option Value)
  (it : Loose) (bi : BatchItem) :
  normBatchItem names wm it = Ok bi -> batch_item_shape it bi.
Proof.
  unfold normBatchItem. intros H.
  inv_bind H. inv_bind H. inv_bind H. inv_bind H. inv_bind H. inv_bind H.
  apply get_Ok_inv in E1, E2. destruct E1 as [_ ->]. destruct E2 as [_ ->].
  inv_ok H. unfold batch_item_shape. cbn [ok result error].
  destruct (truthy (prop it "ok")) eqn:Tok; cbn [andb negb] in *.
  - destruct (truthy (prop it "result") && typeof_object (prop it "result"))
      eqn:Tr; cbn [bind] in E3.
    + repeat (inv_bind E3). inv_ok E3.
      repeat split; try discriminate; try reflexivity.
    + inv_ok E3.
      repeat split; try discriminate; try reflexivity.
      intros C. contradiction C. reflexivity.
  - inv_ok E3.
    repeat split; try discriminate; try reflexivity.
    intros C. contradiction C. reflexivity.
Qed.

(** C5, as stated, fails: a raw item whose [ok] is true and whose result is
    missing, or is not an object, becomes an item with [ok] true and no
    result. *)
Lemma C5_counterexample :
  let raw := VObj [("items"%string,
                     VArr [VObj [("id"%string, VStr "s1");
                                 ("ok"%string, VBool true)];
                           VObj [("id"%string, VStr "s2");
                                 ("ok"%string, VBool true);
                                 ("result"%string, VStr "done")]])] in
  exists b,
    normalizeBatchResponse [] raw = Ok b
    /\ map (fun bi => (id bi, ok bi, result bi)) (items b)
       = [("s1"%string, true, None); ("s2"%string, true, None)].
Proof.
  eexists. split; [vm_compute; reflexivity | reflexivity].
Qed.

(** C5, amended: every item that [normalizeBatchResponse] produces has [ok]
    equal to the truth value of the raw [ok]; [ok] false implies that the
    result is absent, [ok] true implies that the error is absent, and the
    result is present exactly when [ok] is true and the raw [outcome] is an
    object (not [null]); an item with [ok] true whose raw result is missing
    or not an object has no result. *)
Theorem C5_batch_item_invariant :
  forall (names : list string) (raw : Loose) (b : BatchGradeResponse),
    normalizeBatchResponse names raw = Ok b ->
    Forall2 batch_item_shape
      (if isArray (prop raw "items") then elements (prop raw "items") else [])
      (items b).
Proof.
  intros names raw b H. unfold normalizeBatchResponse in H.
  inv_bind H. inv_bind H. inv_bind H.
  apply get_Ok_inv in E. destruct E as [_ ->].
  assert (Hi : items b = x1) by (repeat (inv_bind H); inv_ok H; reflexivity).
  rewrite Hi. apply mapM_Forall2 in E1.
  revert E1. apply Forall2_impl. intros it bi. apply normBatchItem_shape.
Qed.

Lemma C5_batch_item_invariant_witness :
  Forall2 batch_item_shape
    [VObj [("ok"%string, VBool true)];
     VObj [("ok"%string, VBool false); ("error"%string, VStr "timeout")];
     VObj [("ok"%string, VNum 1);
           ("result"%string, VObj [("overall_score"%string, VNum 80)])]]
    [ {| id := ""; file := ""; ok := true; result := None; error := None |};
      {| id := ""; file := ""; ok := false; result := None;
         error := Some "timeout"%string |};
      {| id := ""; file := ""; ok := true;
         result := Some {| item_overall_score := 80;
                            item_weighted_overall := None;
                            feedback := "";
                            item_rubric_scores := None |};
         error := None |} ].
Proof.
  exact (C5_batch_item_invariant []
    (VObj [("items"%string,
      VArr [VObj [("ok"%string, VBool true)];
            VObj [("ok"%string, VBool false); ("error"%string, VStr "timeout")];
            VObj [("ok"%string, VNum 1);
                  ("result"%string, VObj [("overall_score"%string, VNum 80)])]])])
    {| count := 3; success_count := 0; fail_count := 0; rubric_used := [];
       batch_weights_used := None; batch_reference_answer := "";
       batch_reference_answer_generated := false;
       items :=
         [ {| id := ""; file := ""; ok := true; result := None; error := None |};
           {| id := ""; file := ""; ok := false; result := None;
              error := Some "timeout"%string |};
           {| id := ""; file := ""; ok := true;
              result := Some {| item_overall_score := 80;
                                 item_weighted_overall := None;
                                 feedback := "";
                                 item_rubric_scores := None |};
              error := None |} ];
       summary := None; report_files := None |}
    eq_refl).
Defined.



(** ** The batch statistics: [recomputeBatchSummary] *)

Example batch_pass_rate :
  recomputeBatchSummary
    [graded "a" 50; graded "b" 60; failed "x" "timeout"; graded "c" 70;
     graded "d" 80] "60"
  = {| avg := 65; min := 50; max := 80; stdev := 11.2; pass_rate := 75 |}.
Proof. vm_compute. reflexivity. Qed.

Lemma collect_scores_In (items : list BatchItem) (x : float) :
  In x (collect_scores items)
  <-> exists it res,
        In it items /\ ok it = true /\ result it = Some res
        /\ item_overall_score res = x.
Proof.
  induction items as [|it r IH]; simpl.
  - split; [intros [] | intros [it [res [[] _]]]].
  - destruct (result it) as [res|] eqn:R.
    + destruct (ok it) eqn:O; simpl.
      * split.
        -- intros [<- | Hin].
           ++ exists it, res. repeat split; auto.
           ++ apply IH in Hin. destruct Hin as [it' [res' [Hi Hr]]].
              exists it', res'. split; [right; exact Hi | exact Hr].
        -- intros [it' [res' [[<- | Hi] [Ho [Hr Hx]]]]].
           ++ left. rewrite R in Hr. congruence.
           ++ right. apply IH. exists it', res'. repeat split; assumption.
      * rewrite IH. split.
        -- intros [it' [res' [Hi Hr]]].
           exists it', res'. split; [right; exact Hi | exact Hr].
        -- intros [it' [res' [[<- | Hi] [Ho [Hr Hx]]]]].
           ++ rewrite O in Ho. discriminate Ho.
           ++ exists it', res'. repeat split; assumption.
    + rewrite IH. split.
      * intros [it' [res' [Hi Hr]]].
        exists it', res'. split; [right; exact Hi | exact Hr].
      * intros [it' [res' [[<- | Hi] [Ho [Hr Hx]]]]].
        -- rewrite R in Hr. discriminate Hr.
        -- exists it', res'. repeat split; assumption.
Qed.

Lemma collect_scores_none (items : list BatchItem) :
  (forall it, In it items -> ok it = false \/ result it = None) ->
  collect_scores items = [].
Proof.
  intros H. destruct (collect_scores items) as [|x r] eqn:C; [reflexivity |].
  assert (Hin : In x (collect_scores items)) by (rewrite C; left; reflexivity).
  apply collect_scores_In in Hin. destruct Hin as [it [res [Hi [Ho [Hr _]]]]].
  destruct (H it Hi) as [F | F].
  - rewrite F in Ho. discriminate Ho.
  - rewrite F in Hr. discriminate Hr.
Qed.

(** C6, as stated, fails: an item whose overall score is NaN is of type
    number, so it is collected, and the summary is not the all-zero one:
    its average is NaN. *)
Lemma C6_counterexample :
  isFinite nan = false
  /\ collect_scores [graded "s1" nan] = [nan]
  /\ is_nan (avg (recomputeBatchSummary [graded "s1" nan] "60")) = true
  /\ recomputeBatchSummary [graded "s1" nan] "60" <> zero_summary
  /\ collect_scores [graded "s1" 70; graded "s2" infinity] = [70; infinity].
Proof.
  repeat split; try (vm_compute; reflexivity).
  intros E. apply (f_equal (fun r => is_nan (avg r))) in E.
  vm_compute in E. discriminate E.
Qed.

(** The collected scores, item by item. *)
Lemma collect_scores_eq (items : list BatchItem) :
  collect_scores items
  = map (fun it => match result it with
                   | Some res => item_overall_score res
                   | None => 0
                   end)
      (filter (fun it => ok it && match result it with
                                  | Some _ => true
                                  | None => false
                                  end) items).
Proof.
  induction items as [|it r IH]; simpl; [reflexivity |].
  destruct (result it) as [res|] eqn:R.
  - destruct (ok it); simpl.
    + rewrite R, IH. reflexivity.
    + exact IH.
  - rewrite Bool.andb_false_r. exact IH.
Qed.

(** C6, amended: [recomputeBatchSummary] collects the overall score of every
    item whose [ok] is true and whose result is present, once per item and
    in the order of the items, the score being of type number: NaN and the
    infinities are collected as well.  When no item qualifies it returns the
    all-zero summary, dividing by nothing; otherwise (for at most 1000
    collected scores) its average is their mean brought to one decimal, and
    its minimum and maximum are [Math.min] and [Math.max] of them. *)
Theorem C6_collected_scores :
  (forall (items : list BatchItem),
      collect_scores items
      = map (fun it => match result it with
                       | Some res => item_overall_score res
                       | None => 0
                       end)
          (filter (fun it => ok it && match result it with
                                      | Some _ => true
                                      | None => false
                                      end) items))
  /\ (forall (items : list BatchItem) (passThreshold : string),
        (forall it, In it items -> ok it = false \/ result it = None) ->
        recomputeBatchSummary items passThreshold = zero_summary)
  /\ (forall (items : list BatchItem) (passThreshold : string),
        let scores :=
          map (fun it => match result it with
                         | Some res => item_overall_score res
                         | None => 0
                         end)
            (filter (fun it => ok it && match result it with
                                        | Some _ => true
                                        | None => false
                                        end) items) in
        scores <> [] ->
        (List.length scores <= 1000)%nat ->
        avg (recomputeBatchSummary items passThreshold)
        = Num.round
            (fold_left (fun acc x => acc + x) scores 0
             / Num.of_nat (List.length scores) * 10) / 10
        /\ min (recomputeBatchSummary items passThreshold) = Num.min scores
        /\ max (recomputeBatchSummary items passThreshold) = Num.max scores).
Proof.
  split; [exact collect_scores_eq |].
  split.
  - intros items th H. unfold recomputeBatchSummary.
    rewrite (collect_scores_none items H). reflexivity.
  - intros items th scores Hne _. unfold recomputeBatchSummary.
    rewrite collect_scores_eq. fold scores.
    destruct scores as [|x r]; [contradiction Hne; reflexivity |].
    repeat split.
Qed.

Lemma C6_collected_scores_witness :
  let items := [graded "s1" 70; failed "s2" "timeout"; graded "s3" 70;
                {| id := "s4"; file := "d.pdf"; ok := true; result := None;
                   error := None |}; graded "s5" 40] in
  recomputeBatchSummary
    [failed "s1" "timeout";
     {| id := "s2"; file := "b.pdf"; ok := true; result := None;
        error := None |}] "60"
  = zero_summary
  /\ collect_scores items = [70; 70; 40]
  /\ avg (recomputeBatchSummary items "60") = 60
  /\ min (recomputeBatchSummary items "60") = 40
  /\ max (recomputeBatchSummary items "60") = 70.
Proof.
  split; [| split].
  - apply (proj1 (proj2 C6_collected_scores)).
    intros it [<- | [<- | []]]; [left | right]; reflexivity.
  - exact (proj1 C6_collected_scores
             [graded "s1" 70; failed "s2" "timeout"; graded "s3" 70;
              {| id := "s4"; file := "d.pdf"; ok := true; result := None;
                 error := None |}; graded "s5" 40]).
  - apply (proj2 (proj2 C6_collected_scores)
             [graded "s1" 70; failed "s2" "timeout"; graded "s3" 70;
              {| id := "s4"; file := "d.pdf"; ok := true; result := None;
                 error := None |}; graded "s5" 40] "60").
    + discriminate.
    + simpl. lia.
Defined.

(** ** The criterion name *)

(** C9 fails on the code: the fallback passes over the key [comment] only.
    A raw item without a name whose first string field is [feedback] is
    named after its feedback, where the claim excludes every alias of the
    comment and names it ["Item 1"]; only [comment] itself is excluded.  The
    raw item [{weight: 2}] at index 0 is named ["Item 1"]. *)
Theorem C9_fallback_takes_comment_alias :
  normItem [] None
    (VObj [("feedback"%string, VStr "Good work"); ("score"%string, VNum 1)]) 0
  = Ok {| criterion := "Good work"; score := 1; weight := Some 1;
          comment := Some "Good work"%string |}
  /\ item_name []
       (VObj [("score"%string, VNum 1); ("reason"%string, VStr " too short ")]) 2
     = Ok "too short"%string
  /\ item_name []
       (VObj [("comment"%string, VStr "Good work"); ("score"%string, VNum 1)]) 0
     = Ok "Item 1"%string
  /\ item_name [] (VObj [("weight"%string, VNum 2)]) 0
     = Ok "Item 1"%string.
Proof.
  repeat split; vm_compute; reflexivity.
Qed.

(** ** Idempotence of [normalizeGradeResponse] *)

Section Trim.

Local Open Scope string_scope.

Lemma trimStart_no_lead (s : string) : no_lead (trimStart s).
Proof.
  induction s as [|c r IH]; simpl; [exact I |].
  destruct (is_space c) eqn:C; [exact IH | exact C].
Qed.

Lemma trimStart_fixed (s : string) : no_lead s -> trimStart s = s.
Proof.
  destruct s as [|c r]; simpl; intros H; [reflexivity |].
  rewrite H. reflexivity.
Qed.

Lemma trimEnd_no_lead (s : string) : no_lead s -> no_lead (trimEnd s).
Proof.
  destruct s as [|c r]; simpl; intros H; [exact I |].
  destruct (trimEnd r); [rewrite H |]; exact H.
Qed.

Lemma trimEnd_idem (s : string) : trimEnd (trimEnd s) = trimEnd s.
Proof.
  induction s as [|c r IH]; simpl; [reflexivity |].
  destruct (trimEnd r) as [|c' r'] eqn:T.
  - destruct (is_space c) eqn:C; simpl; [reflexivity |].
    rewrite C. reflexivity.
  - change (trimEnd (String c (String c' r'))) with
      (match trimEnd (String c' r') with
       | EmptyString =>
           if is_space c then EmptyString else String c EmptyString
       | String a b => String c (String a b)
       end).
    rewrite IH. reflexivity.
Qed.

Lemma trim_idem (s : string) : trim (trim s) = trim s.
Proof.
  unfold trim.
  rewrite (trimStart_fixed (trimEnd (trimStart s))).
  - apply trimEnd_idem.
  - apply trimEnd_no_lead, trimStart_no_lead.
Qed.

Lemma trimEnd_app (s t : string) :
  t <> "" -> trimEnd t = t -> trimEnd (s ++ t) = s ++ t.
Proof.
  intros Hne Ht. induction s as [|c r IH]; simpl; [exact Ht |].
  rewrite IH. destruct (r ++ t) as [|a b] eqn:E; [| reflexivity].
  destruct r; simpl in E; [contradiction | discriminate E].
Qed.

Lemma trimEnd_digits (u : Decimal.uint) :
  trimEnd (NilEmpty.string_of_uint u) = NilEmpty.string_of_uint u.
Proof.
  induction u; simpl; try reflexivity;
    rewrite IHu; destruct (NilEmpty.string_of_uint u); reflexivity.
Qed.

Lemma trimEnd_string_of_nat (n : nat) :
  string_of_nat n <> "" /\ trimEnd (string_of_nat n) = string_of_nat n.
Proof.
  unfold string_of_nat, NilZero.string_of_uint.
  destruct (Nat.to_uint n) eqn:U;
    try (split; [simpl; discriminate | apply trimEnd_digits]).
  split; [discriminate | reflexivity].
Qed.

Lemma trim_item_name (n : nat) :
  trim ("Item " ++ string_of_nat n) = "Item " ++ string_of_nat n.
Proof.
  unfold trim.
  change (trimStart ("Item " ++ string_of_nat n))
    with ("Item " ++ string_of_nat n).
  destruct (trimEnd_string_of_nat n) as [Hne Ht].
  apply trimEnd_app; assumption.
Qed.

End Trim.

Lemma or_else_canonical (a b : string) :
  trim a = a -> canonical_name b -> canonical_name (or_else a b).
Proof.
  intros Ha Hb. unfold or_else.
  destruct (is_empty a) eqn:E; [exact Hb | split; assumption].
Qed.

Lemma first_string_field_trimmed (es : list (string * Value)) :
  trim (first_string_field es) = first_string_field es.
Proof.
  induction es as [|[k v] r IH]; simpl; [reflexivity |].
  destruct v; try exact IH.
  destruct (negb (k =? "comment")%string); [apply trim_idem | exact IH].
Qed.

Lemma item_name_canonical (names : list string) (it : Loose) (idx : nat)
  (name : string) :
  item_name names it idx = Ok name -> canonical_name name.
Proof.
  unfold item_name. intros H. inv_bind H. inv_bind H. inv_ok H.
  apply or_else_canonical.
  { destruct (toStr x); [apply trim_idem | reflexivity]. }
  apply or_else_canonical; [apply trim_idem |].
  apply or_else_canonical.
  { destruct (is_empty _ && is_empty _).
    - inv_bind E0. inv_ok E0. apply first_string_field_trimmed.
    - inv_ok E0. reflexivity. }
  split; [apply trim_item_name | reflexivity].
Qed.

Arguments isFinite : simpl never.

Lemma toNum_number (n d : float) :
  isFinite n = true -> toNum (VNum n) d = Ok n.
Proof. intros H. unfold toNum. simpl. rewrite H. reflexivity. Qed.

Lemma toNum_finite (v : Value) (d n : float) :
  isFinite d = true -> toNum v d = Ok n -> isFinite n = true.
Proof.
  intros Hd H. unfold toNum in H. inv_bind H. inv_ok H.
  destruct (isFinite x) eqn:F; assumption.
Qed.

Lemma item_weight_stable (wm : option Value) (it : Loose) (name : string)
  (w : float) :
  item_weight wm it name = Ok w -> stable_weight wm name w.
Proof.
  unfold item_weight. intros H. inv_bind H. inv_bind H.
  assert (Fb : isFinite x0 = true)
    by (exact (toNum_finite x 1 x0 isFinite_one E0)).
  destruct wm as [m|].
  - inv_bind H. destruct x1.
    + inv_bind H. inv_bind H. injection H as H.
      destruct (isFinite x2) eqn:F2; subst w.
      * split; [exact F2 |]. intros it' Hp. unfold item_weight.
        rewrite Hp. cbn [bind]. rewrite (toNum_number x2 1 F2). cbn [bind].
        rewrite E1. cbn [bind]. rewrite E2. cbn [bind]. rewrite E3. cbn [bind].
        rewrite F2. reflexivity.
      * split; [exact Fb |]. intros it' Hp. unfold item_weight.
        rewrite Hp. cbn [bind]. rewrite (toNum_number x0 1 Fb). cbn [bind].
        rewrite E1. cbn [bind]. rewrite E2. cbn [bind]. rewrite E3. cbn [bind].
        rewrite F2. reflexivity.
    + injection H as H. subst w. split; [exact Fb |].
      intros it' Hp. unfold item_weight.
      rewrite Hp. cbn [bind]. rewrite (toNum_number x0 1 Fb). cbn [bind].
      rewrite E1. reflexivity.
  - injection H as H. subst w. split; [exact Fb |].
    intros it' Hp. unfold item_weight.
    rewrite Hp. cbn [bind]. rewrite (toNum_number x0 1 Fb). reflexivity.
Qed.

Lemma normItem_canonical (names : list string) (wm : option Value)
  (it : Loose) (idx : nat) (r : RubricScore) :
  normItem names wm it idx = Ok r -> canonical_item wm r.
Proof.
  unfold normItem. intros H.
  inv_bind H. inv_bind H. inv_bind H. inv_bind H. inv_bind H. inv_ok H.
  exists x0, (str_or_empty (toStr x3)). cbn.
  split; [reflexivity |]. split; [reflexivity |].
  split; [exact (item_name_canonical names it idx x E) |].
  split; [exact (toNum_finite x1 0 x2 isFinite_zero E2) |].
  exact (item_weight_stable wm it x x0 E0).
Qed.

Lemma normItem_again (names : list string) (wm : option Value)
  (r : RubricScore) (idx : nat) :
  canonical_item wm r -> normItem names wm (RubricScore_value r) idx = Ok r.
Proof.
  intros [w [cm [Hw [Hc [[Ht Hne] [Hs [Hfw Hst]]]]]]].
  destruct r as [c sc ow ocm].
  cbn [criterion score weight comment] in *. subst ow ocm.
  set (it := RubricScore_value
               {| criterion := c; score := sc; weight := Some w;
                  comment := Some cm |}).
  assert (Ho : is_object it = true) by reflexivity.
  assert (P1 : pick it name_aliases = Ok (VStr c))
    by exact (pick_cons_present it "criterion" (tl name_aliases) (VStr c)
                Ho eq_refl).
  assert (P2 : pick it weight_aliases = Ok (VNum w))
    by exact (pick_cons_present it "weight" (tl weight_aliases) (VNum w)
                Ho eq_refl).
  assert (P3 : pick it score_aliases = Ok (VNum sc))
    by exact (pick_cons_present it "score" (tl score_aliases) (VNum sc)
                Ho eq_refl).
  assert (P4 : pick it comment_aliases = Ok (VStr cm))
    by exact (pick_cons_present it "comment" (tl comment_aliases) (VStr cm)
                Ho eq_refl).
  assert (Hname : item_name names it idx = Ok c).
  { unfold item_name. rewrite P1.
    cbn [bind toStr]. rewrite Ht, Hne. cbn [andb bind].
    unfold or_else at 1. rewrite Hne. reflexivity. }
  unfold normItem. rewrite Hname. cbn [bind].
  rewrite (Hst it P2). cbn [bind].
  rewrite P3. cbn [bind]. rewrite (toNum_number sc 0 Hs). cbn [bind].
  rewrite P4. reflexivity.
Qed.

Lemma mapiM_canonical (names : list string) (wm : option Value)
  (xs : list Value) :
  forall (i : nat) (rs : list RubricScore),
    mapiM (normItem names wm) i xs = Ok rs -> Forall (canonical_item wm) rs.
Proof.
  induction xs as [|x r IH]; simpl; intros i rs H.
  - inv_ok H. constructor.
  - inv_bind H. inv_bind H. inv_ok H. constructor.
    + exact (normItem_canonical names wm x i x0 E).
    + exact (IH (S i) x1 E0).
Qed.

Lemma mapiM_again (names : list string) (wm : option Value)
  (rs : list RubricScore) :
  Forall (canonical_item wm) rs ->
  forall i : nat,
    mapiM (normItem names wm) i (map RubricScore_value rs) = Ok rs.
Proof.
  induction 1 as [|r rest Hr _ IH]; intros i; simpl; [reflexivity |].
  rewrite (normItem_again names wm r i Hr). cbn [bind].
  rewrite IH. reflexivity.
Qed.

Lemma weights_map_shape (raw : Loose) (wm : option Value) :
  weights_map raw = Ok wm ->
  match wm with
  | Some wu => truthy wu && typeof_object wu = true
  | None => True
  end.
Proof.
  unfold weights_map. intros H. inv_bind H. inv_ok H.
  destruct (truthy x && typeof_object x) eqn:T; [exact T | exact I].
Qed.

(** The second pass over a canonical result whose fields are as the first
    pass leaves them. *)
Lemma normalize_canonical (names : list string) (os : float) (oc : string)
  (rs : list RubricScore) (ra : option string) (gen : bool)
  (wo : option float) (wm : option Value) :
  isFinite os = true ->
  match wm with
  | Some wu => truthy wu && typeof_object wu = true
  | None => True
  end ->
  Forall (canonical_item wm) rs ->
  let g := {| overall_score := os; overall_comment := oc;
              rubric_scores := Some rs; reference_answer := ra;
              reference_answer_generated := Some gen;
              weighted_overall := wo; weights_used := wm |} in
  normalizeGradeResponse names (GradeResponse_value g) = Ok g.
Proof.
  intros Fos Hwm Hrs g.
  set (raw := GradeResponse_value g).
  assert (Ho : is_object raw = true) by reflexivity.
  assert (W : weights_map raw = Ok wm).
  { unfold weights_map.
    change (get raw "weights_used") with (Ok (of_option (fun m => m) wm)).
    cbn [bind]. destruct wm as [wu|]; simpl; [rewrite Hwm |]; reflexivity. }
  assert (S0 : items_source raw = Ok (map RubricScore_value rs))
    by reflexivity.
  assert (O : overall_source raw = Ok (VNum os)) by reflexivity.
  assert (C : pick raw ["feedback"; "overall_comment"; "summary"; "comment"]%string
              = Ok (VStr oc)) by reflexivity.
  assert (R : pick raw ["reference_answer"; "reference"; "ref_answer"]%string
              = Ok (of_option VStr ra)) by reflexivity.
  assert (G1 : get raw "reference_answer_generated" = Ok (VBool gen))
    by reflexivity.
  assert (G2 : get raw "generated_reference" = Ok VUndef) by reflexivity.
  assert (WO : get raw "weighted_overall" = Ok (of_option VNum wo))
    by reflexivity.
  unfold normalizeGradeResponse.
  rewrite W. cbn [bind]. rewrite S0. cbn [bind]. rewrite O. cbn [bind].
  rewrite (toNum_number os 0 Fos). cbn [bind]. rewrite C. cbn [bind].
  rewrite (mapiM_again names wm rs Hrs 0). cbn [bind].
  rewrite R. cbn [bind]. rewrite G1. cbn [bind]. rewrite G2. cbn [bind].
  rewrite WO. cbn [bind].
  unfold g. f_equal. f_equal.
  - destruct ra; reflexivity.
  - destruct wo; reflexivity.
Qed.

(** C10: [normalizeGradeResponse] is idempotent: applied to its own result,
    with the same reviewer names, it returns that result again. *)
Theorem C10_normalize_idempotent :
  forall (names : list string) (raw : Loose) (g : GradeResponse),
    normalizeGradeResponse names raw = Ok g ->
    normalizeGradeResponse names (GradeResponse_value g) = Ok g.
Proof.
  intros names raw g H. unfold normalizeGradeResponse in H.
  apply bind_Ok in H. destruct H as [wm [Hwm H]].
  apply bind_Ok in H. destruct H as [src [Hsrc H]].
  apply bind_Ok in H. destruct H as [osrc [Hosrc H]].
  apply bind_Ok in H. destruct H as [os [Hos H]].
  apply bind_Ok in H. destruct H as [oc [Hoc H]].
  apply bind_Ok in H. destruct H as [rs [Hrs H]].
  apply bind_Ok in H. destruct H as [ra [Hra H]].
  apply bind_Ok in H. destruct H as [g1 [Hg1 H]].
  apply bind_Ok in H. destruct H as [g2 [Hg2 H]].
  apply bind_Ok in H. destruct H as [wo [Hwo H]].
  injection H as H. subst g.
  apply normalize_canonical.
  - exact (toNum_finite osrc 0 os isFinite_zero Hos).
  - exact (weights_map_shape raw wm Hwm).
  - exact (mapiM_canonical names wm src 0 rs Hrs).
Qed.

Example sample_normalized :
  normalizeGradeResponse ["Clarity"; "  "]%string sample_payload = Ok sample_result.
Proof. vm_compute. reflexivity. Qed.

Lemma C10_normalize_idempotent_witness :
  normalizeGradeResponse ["Clarity"; "  "]%string
    (GradeResponse_value sample_result)
  = Ok sample_result.
Proof.
  apply (C10_normalize_idempotent ["Clarity"; "  "]%string sample_payload).
  vm_compute. reflexivity.
Defined.

(** * The rest of the code *)

(** ** The rubric text: [getRubricNamesFromUser], [buildRubricField] *)

Lemma pick_object (o : Value) (keys : list string) :
  is_object o = true -> pick o keys = Ok (first_present o keys).
Proof.
  intros Ho. induction keys as [|k r IH]; [reflexivity |].
  destruct (own_property o k) as [v|] eqn:P.
  - rewrite (pick_cons_present o k r v Ho P). simpl. rewrite P. reflexivity.
  - rewrite (pick_cons_absent o k r Ho P). simpl. rewrite P. exact IH.
Qed.

Lemma rubric_entry_name_Ok (it : Value) :
  rubric_entry_name it = Ok (entry_name it).
Proof.
  destruct it; try reflexivity.
  - simpl. destruct b; reflexivity.
  - simpl. destruct (negb _); reflexivity.
  - unfold rubric_entry_name. cbn [truthy typeof_object andb].
    rewrite pick_object by reflexivity. reflexivity.
  - unfold rubric_entry_name. cbn [truthy typeof_object andb].
    rewrite pick_object by reflexivity. reflexivity.
Qed.

Lemma mapM_rubric_entry_name (xs : list Value) :
  mapM rubric_entry_name xs = Ok (map entry_name xs).
Proof.
  induction xs as [|x r IH]; simpl; [reflexivity |].
  rewrite rubric_entry_name_Ok. cbn [bind]. rewrite IH. reflexivity.
Qed.

Lemma filter_nonempty_Forall (l : list string) :
  Forall (fun x => is_empty x = false) (filter_nonempty l).
Proof.
  unfold filter_nonempty. apply Forall_forall. intros x Hx.
  apply filter_In in Hx. destruct Hx as [_ Hx].
  destruct (is_empty x); [discriminate Hx | reflexivity].
Qed.

Lemma getRubricNamesFromUser_eq (JSON_parse : string -> outcome Value)
  (text : string) :
  getRubricNamesFromUser JSON_parse text
  = if is_empty (trim text) then []
    else match JSON_parse (trim text) with
         | Ok data =>
             if isArray data
             then filter_nonempty (map entry_name (elements data))
             else []
         | Throw _ => []
         end.
Proof.
  unfold getRubricNamesFromUser, parsed_names.
  destruct (is_empty (trim text)); [reflexivity |].
  destruct (JSON_parse (trim text)) as [data|e]; [| reflexivity].
  cbn [bind]. destruct (isArray data); [| reflexivity].
  rewrite mapM_rubric_entry_name. reflexivity.
Qed.

Lemma getRubricNamesFromUser_nonempty (JSON_parse : string -> outcome Value)
  (text : string) :
  Forall (fun x => is_empty x = false) (getRubricNamesFromUser JSON_parse text).
Proof.
  rewrite getRubricNamesFromUser_eq.
  destruct (is_empty (trim text)); [constructor |].
  destruct (JSON_parse (trim text)) as [data|e]; [| constructor].
  destruct (isArray data); [apply filter_nonempty_Forall | constructor].
Qed.


Lemma is_empty_append (a b : string) :
  is_empty a = false -> is_empty (a ++ b) = false.
Proof. destruct a; simpl; [discriminate | reflexivity]. Qed.

Lemma join_nonempty (sep x : string) (r : list string) :
  is_empty x = false -> is_empty (join sep (x :: r)) = false.
Proof.
  intros H. simpl. destruct r; [exact H | apply is_empty_append; exact H].
Qed.

Lemma join_concat (sep : string) (xs : list string) :
  join sep xs = String.concat sep xs.
Proof.
  induction xs as [|x r IH]; [reflexivity |].
  destruct r as [|y r']; [reflexivity |].
  change (join sep (x :: y :: r')) with (x ++ sep ++ join sep (y :: r'))%string.
  rewrite IH. reflexivity.
Qed.

(** X2: [buildRubricField] returns [undefined] exactly when the text is
    blank.  Otherwise it returns a string that is not empty: the names
    joined by [", "] exactly when the trimmed text is a JSON array that
    yields at least one name, and the trimmed text itself in every other
    case. *)
Theorem buildRubricField_never_empty :
  forall (JSON_parse : string -> outcome Value) (rawText : string),
    buildRubricField JSON_parse rawText
    = (if is_empty (trim rawText) then None
       else match getRubricNamesFromUser JSON_parse (trim rawText) with
            | [] => Some (trim rawText)
            | names => Some (String.concat ", " names)
            end)
    /\ (forall field,
          buildRubricField JSON_parse rawText = Some field ->
          is_empty field = false).
Proof.
  intros parse rawText. unfold buildRubricField.
  destruct (is_empty (trim rawText)) eqn:E.
  - split; [reflexivity | intros field H; discriminate H].
  - pose proof (getRubricNamesFromUser_nonempty parse (trim rawText)) as F.
    destruct (getRubricNamesFromUser parse (trim rawText)) as [|x r] eqn:N.
    + simpl. split; [reflexivity |]. intros field H. inv_ok H. exact E.
    + cbn [List.length Nat.ltb Nat.leb].
      split; [rewrite join_concat; reflexivity |].
      intros field H. injection H as <-.
      apply (join_nonempty ", " x r). inversion F; assumption.
Qed.

Lemma buildRubricField_never_empty_witness :
  let q := String "034"%char EmptyString in
  let text := ("[" ++ q ++ "Clarity" ++ q ++ ", {" ++ q ++ "name" ++ q
               ++ ": " ++ q ++ "Method" ++ q ++ "}, 3]")%string in
  let parse := fun t : string =>
    if String.eqb t text
    then Ok (VArr [VStr "Clarity"; VObj [("name"%string, VStr "Method")];
                   VNum 3])
    else if String.eqb t "[]" then Ok (VArr [])
    else Throw TypeError in
  buildRubricField parse ("  " ++ text ++ " ") = Some "Clarity, Method"%string
  /\ is_empty "Clarity, Method" = false
  /\ buildRubricField parse " [] " = Some "[]"%string
  /\ buildRubricField parse " clarity and method "
     = Some "clarity and method"%string
  /\ buildRubricField parse "   " = None.
Proof.
  intros q text parse.
  split; [| split; [| split; [| split]]].
  - exact (proj1 (buildRubricField_never_empty parse ("  " ++ text ++ " "))).
  - apply (proj2 (buildRubricField_never_empty parse ("  " ++ text ++ " "))).
    vm_compute. reflexivity.
  - exact (proj1 (buildRubricField_never_empty parse " [] ")).
  - exact (proj1 (buildRubricField_never_empty parse " clarity and method ")).
  - exact (proj1 (buildRubricField_never_empty parse "   ")).
Defined.

(** ** The edit of one criterion: [handleEditRubricScore] *)







(** ** What the aggregate reads *)

Lemma effective_weight_name (uw : bool) (wu : Value) (a b : RubricScore) :
  criterion a = criterion b ->
  effective_weight uw wu a = effective_weight uw wu b.
Proof. intros H. unfold effective_weight. rewrite H. reflexivity. Qed.

Lemma weighted_sums_names_scores (uw : bool) (wu : Value)
  (a b : list RubricScore) :
  map name_and_score a = map name_and_score b ->
  forall sw ssw,
    weighted_sums uw wu a sw ssw = weighted_sums uw wu b sw ssw.
Proof.
  revert b. induction a as [|x r IH]; intros [|y q] H sw ssw;
    simpl in H; try discriminate H; [reflexivity |].
  injection H as Hc Hs Hr. simpl.
  rewrite (effective_weight_name uw wu x y Hc).
  unfold finite_score. rewrite Hs.
  destruct (effective_weight uw wu y) as [w|e]; [| reflexivity].
  cbn [bind]. apply IH. exact Hr.
Qed.

Lemma max_score_scores (a b : list RubricScore) :
  map name_and_score a = map name_and_score b -> max_score a = max_score b.
Proof.
  intros H. unfold max_score. f_equal.
  revert b H. induction a as [|x r IH]; intros [|y q] H;
    simpl in H; try discriminate H; [reflexivity |].
  injection H as Hc Hs Hr. simpl. unfold finite_score at 1 3.
  rewrite Hs. f_equal. apply IH. exact Hr.
Qed.

(** X4: the aggregate reads nothing of the criteria but their names and
    scores: two lists with the same names and scores, in the same order,
    have the same aggregate (or throw alike), whatever their comments and
    per-item weights.  An edit of a comment never moves the overall
    score. *)
Theorem recomputeOverallManual_names_scores :
  forall (a b : list RubricScore) (weightsUsed : Value),
    map name_and_score a = map name_and_score b ->
    recomputeOverallManual a weightsUsed
    = recomputeOverallManual b weightsUsed
    /\ recomputeOverallManualForItem a weightsUsed
       = recomputeOverallManualForItem b weightsUsed.
Proof.
  intros a b wu H.
  assert (E : recomputeOverallManual a wu = recomputeOverallManual b wu).
  { unfold recomputeOverallManual.
    destruct a as [|x r], b as [|y q]; simpl in H; try discriminate H;
      [reflexivity |].
    destruct (use_weights wu) as [uw|e]; [| reflexivity]. cbn [bind].
    rewrite (weighted_sums_names_scores uw wu (x :: r) (y :: q) H).
    unfold scale_of. rewrite (max_score_scores (x :: r) (y :: q) H).
    reflexivity. }
  split; [exact E |].
  rewrite !recomputeOverallManualForItem_eq. exact E.
Qed.

Lemma recomputeOverallManual_names_scores_witness :
  let a := [mkScore "Clarity" 0.8 2; mkScore "Method" 0.5 1] in
  let b := [with_comment (mkScore "Clarity" 0.8 7) "clear";
            mkScore "Method" 0.5 3] in
  let m := VObj [("Clarity"%string, VNum 3)] in
  recomputeOverallManual a m = recomputeOverallManual b m
  /\ recomputeOverallManualForItem a m = recomputeOverallManualForItem b m.
Proof.
  exact (recomputeOverallManual_names_scores
           [mkScore "Clarity" 0.8 2; mkScore "Method" 0.5 1]
           [with_comment (mkScore "Clarity" 0.8 7) "clear";
            mkScore "Method" 0.5 3]
           (VObj [("Clarity"%string, VNum 3)]) eq_refl).
Defined.

(** ** The manual review of a single result: [applyManualReview] *)

(** What [normalizeGradeResponse] returns. *)
Lemma normalize_shape (names : list string) (raw : Loose) (g : GradeResponse) :
  normalizeGradeResponse names raw = Ok g ->
  exists os oc rs ra gen wo wm,
    g = {| overall_score := os; overall_comment := oc;
           rubric_scores := Some rs; reference_answer := ra;
           reference_answer_generated := Some gen;
           weighted_overall := wo; weights_used := wm |}
    /\ isFinite os = true
    /\ match wm with
       | Some wu => truthy wu && typeof_object wu = true
       | None => True
       end
    /\ Forall (canonical_item wm) rs
    /\ weights_map raw = Ok wm
    /\ exists src, items_source raw = Ok src
                   /\ mapiM (normItem names wm) 0 src = Ok rs.
Proof.
  intros H. unfold normalizeGradeResponse in H.
  apply bind_Ok in H. destruct H as [wm [Hwm H]].
  apply bind_Ok in H. destruct H as [src [Hsrc H]].
  apply bind_Ok in H. destruct H as [osrc [Hosrc H]].
  apply bind_Ok in H. destruct H as [os [Hos H]].
  apply bind_Ok in H. destruct H as [oc [Hoc H]].
  apply bind_Ok in H. destruct H as [rs [Hrs H]].
  apply bind_Ok in H. destruct H as [ra [Hra H]].
  apply bind_Ok in H. destruct H as [g1 [Hg1 H]].
  apply bind_Ok in H. destruct H as [g2 [Hg2 H]].
  apply bind_Ok in H. destruct H as [wo [Hwo H]].
  injection H as H. subst g.
  eexists _, _, _, _, _, _, _. split; [reflexivity |].
  split; [exact (toNum_finite osrc 0 os isFinite_zero Hos) |].
  split; [exact (weights_map_shape raw wm Hwm) |].
  split; [exact (mapiM_canonical names wm src 0 rs Hrs) |].
  split; [exact Hwm |].
  exists src. split; assumption.
Qed.

Lemma reviewed_canonical (wm : option Value) (rs edited : list RubricScore) :
  Forall (canonical_item wm) rs ->
  Forall2 reviewed rs edited ->
  Forall (canonical_item wm) edited.
Proof.
  intros Hc H. induction H as [|r e rs' es' Hre _ IH]; [constructor |].
  inversion Hc as [|? ? Hr Hrest]; subst.
  constructor; [| apply IH; exact Hrest].
  destruct Hr as [w [cm [Hw [Hcm [Hn [_ Hst]]]]]].
  destruct Hre as [Ec [Ew [Fs Cn]]].
  destruct (comment e) as [cm'|] eqn:Ce; [| contradiction Cn; reflexivity].
  exists w, cm'. rewrite Ec, Ew.
  split; [exact Hw |]. split; [exact Ce |].
  split; [exact Hn |]. split; [exact Fs | exact Hst].
Qed.

(** X5: a reviewed result is canonical again.  When a result of
    [normalizeGradeResponse] is reviewed (the criteria keep their names and
    weights, the scores are finite, the comments present) and
    [applyManualReview] recomputes a finite overall score, the updated
    result has its overall score and weighted overall equal, keeps the
    reference answer and the weights map, and normalizing it again returns
    it unchanged. *)
Theorem applyManualReview_canonical :
  forall (names : list string) (raw : Loose) (g g' : GradeResponse)
         (edited : list RubricScore) (editedOverallComment : string),
    normalizeGradeResponse names raw = Ok g ->
    Forall2 reviewed
      (match rubric_scores g with Some rs => rs | None => [] end) edited ->
    applyManualReview (Some g) edited editedOverallComment = Ok (Some g') ->
    isFinite (overall_score g') = true ->
    weighted_overall g' = Some (overall_score g')
    /\ rubric_scores g' = Some edited
    /\ overall_comment g' = editedOverallComment
    /\ reference_answer g' = reference_answer g
    /\ weights_used g' = weights_used g
    /\ normalizeGradeResponse names (GradeResponse_value g') = Ok g'.
Proof.
  intros names raw g g' edited oc Hn Hrev Happ Hfin.
  destruct (normalize_shape names raw g Hn)
    as [os [oc0 [rs [ra [gen [wo [wm [-> [_ [Hwm [Hcan _]]]]]]]]]]].
  cbn [rubric_scores] in Hrev.
  unfold applyManualReview in Happ. cbn [weights_used] in Happ.
  apply bind_Ok in Happ. destruct Happ as [newOverall [Hre Happ]].
  injection Happ as Happ. subst g'.
  cbn [overall_score weighted_overall rubric_scores overall_comment
       reference_answer weights_used reference_answer_generated] in *.
  repeat (split; [reflexivity |]).
  apply (normalize_canonical names newOverall oc edited ra gen
           (Some newOverall) wm Hfin Hwm).
  exact (reviewed_canonical wm rs edited Hcan Hrev).
Qed.

Lemma applyManualReview_canonical_witness :
  let edited :=
    [ {| criterion := "Clarity"; score := 0.9; weight := Some 3;
         comment := Some "clear"%string |};
      {| criterion := "Item 2"; score := 0.5; weight := Some 0;
         comment := Some "half done"%string |};
      {| criterion := "Method"; score := 0; weight := Some 1;
         comment := Some " Method "%string |} ] in
  let g' :=
    {| overall_score := 64; overall_comment := "Reviewed";
       rubric_scores := Some edited;
       reference_answer := Some "42"%string;
       reference_answer_generated := Some true;
       weighted_overall := Some 64;
       weights_used := weights_used sample_result |} in
  weighted_overall g' = Some (overall_score g')
  /\ rubric_scores g' = Some edited
  /\ overall_comment g' = "Reviewed"%string
  /\ reference_answer g' = reference_answer sample_result
  /\ weights_used g' = weights_used sample_result
  /\ normalizeGradeResponse ["Clarity"; "  "]%string (GradeResponse_value g')
     = Ok g'.
Proof.
  apply (applyManualReview_canonical ["Clarity"; "  "]%string sample_payload
           sample_result).
  - vm_compute. reflexivity.
  - repeat constructor; discriminate.
  - vm_compute. reflexivity.
  - vm_compute. reflexivity.
Defined.

(** ** The review of one item of a batch: [applyReviewForItem] *)

Lemma findIndex_Some (wanted : string) (its : list BatchItem) (i : nat) :
  findIndex wanted its = Some i ->
  exists it,
    nth_error its i = Some it /\ id it = wanted
    /\ forall j it', (j < i)%nat -> nth_error its j = Some it' ->
                     id it' <> wanted.
Proof.
  revert i. induction its as [|x r IH]; simpl; intros i H; [discriminate H |].
  destruct (String.eqb (id x) wanted) eqn:E.
  - inv_ok H. exists x. split; [reflexivity |].
    split; [apply String.eqb_eq; exact E |].
    intros j it' Hj. inversion Hj.
  - destruct (findIndex wanted r) as [k|] eqn:F; [| discriminate H].
    inv_ok H. destruct (IH k eq_refl) as [it [Hn [Hi Hb]]].
    exists it. split; [exact Hn |]. split; [exact Hi |].
    intros [|j] it' Hj Hnth; simpl in Hnth.
    + inv_ok Hnth. apply String.eqb_neq. exact E.
    + apply (Hb j it'); [apply PeanoNat.lt_S_n; exact Hj | exact Hnth].
Qed.

Lemma findIndex_find (wanted : string) (its : list BatchItem) :
  match findIndex wanted its with
  | Some i =>
      exists it, nth_error its i = Some it
                 /\ find (fun it => String.eqb (id it) wanted) its = Some it
  | None => find (fun it => String.eqb (id it) wanted) its = None
  end.
Proof.
  induction its as [|x r IH]; simpl; [reflexivity |].
  destruct (String.eqb (id x) wanted) eqn:E.
  - exists x. split; reflexivity.
  - destruct (findIndex wanted r) as [k|].
    + destruct IH as [it [Hn Hf]]. exists it. split; assumption.
    + exact IH.
Qed.

Lemma replace_nth_length {A} (i : nat) (x : A) (l : list A) :
  List.length (replace_nth i x l) = List.length l.
Proof.
  revert i. induction l as [|a r IH]; intros [|j]; simpl; try reflexivity.
  rewrite IH. reflexivity.
Qed.

Lemma replace_nth_other {A} (i j : nat) (x : A) (l : list A) :
  j <> i -> nth_error (replace_nth i x l) j = nth_error l j.
Proof.
  revert i j. induction l as [|a r IH]; intros [|i] [|j] H; simpl;
    try reflexivity.
  - contradiction H. reflexivity.
  - apply IH. intros E. apply H. rewrite E. reflexivity.
Qed.

Lemma replace_nth_same {A} (i : nat) (x y : A) (l : list A) :
  nth_error l i = Some y -> nth_error (replace_nth i x l) i = Some x.
Proof.
  revert i. induction l as [|a r IH]; intros [|i] H; simpl in *;
    try discriminate H; [reflexivity |].
  exact (IH i H).
Qed.

(** X6: when [applyReviewForItem] changes the batch, it changes one item,
    the first whose id is the edited id: that item keeps its id, file, ok
    and error and gets the recomputed overall score (also as weighted
    overall), the edited feedback and the edited criteria; every other item,
    the number of items, the counts, the rubric, the weights and the
    reference answer stay, and the summary is recomputed from the new
    items. *)
Theorem applyReviewForItem_frame :
  forall (cur b' : BatchGradeResponse) (eid : string)
         (edited : list RubricScore) (editedFeedback passThreshold : string),
    applyReviewForItem (Some cur) (Some eid) edited editedFeedback
      passThreshold = Ok (Some b') ->
    exists (idx : nat) (item : BatchItem) (newOverall : float),
      nth_error (items cur) idx = Some item
      /\ id item = eid
      /\ (forall j it', (j < idx)%nat -> nth_error (items cur) j = Some it' ->
                        id it' <> eid)
      /\ recomputeOverallManualForItem edited
           (of_option (fun m => m) (batch_weights_used cur)) = Ok newOverall
      /\ nth_error (items b') idx
         = Some {| id := id item; file := file item; ok := ok item;
                   result :=
                     Some {| item_overall_score := newOverall;
                             item_weighted_overall := Some newOverall;
                             feedback := editedFeedback;
                             item_rubric_scores := Some edited |};
                   error := error item |}
      /\ (forall j, j <> idx ->
            nth_error (items b') j = nth_error (items cur) j)
      /\ List.length (items b') = List.length (items cur)
      /\ summary b' = Some (recomputeBatchSummary (items b') passThreshold)
      /\ count b' = count cur
      /\ success_count b' = success_count cur
      /\ fail_count b' = fail_count cur
      /\ rubric_used b' = rubric_used cur
      /\ batch_weights_used b' = batch_weights_used cur
      /\ batch_reference_answer b' = batch_reference_answer cur.
Proof.
  intros cur b' eid edited fb th H. unfold applyReviewForItem in H.
  destruct (is_empty eid); [discriminate H |].
  destruct (findIndex eid (items cur)) as [idx|] eqn:F; [| discriminate H].
  destruct (findIndex_Some eid (items cur) idx F) as [item [Hn [Hid Hfirst]]].
  rewrite Hn in H.
  destruct (result item) as [ir|]; [| discriminate H].
  apply bind_Ok in H. destruct H as [newOverall [Hre H]].
  injection H as H. subst b'. cbn.
  exists idx, item, newOverall.
  split; [exact Hn |]. split; [exact Hid |]. split; [exact Hfirst |].
  split; [exact Hre |].
  split; [exact (replace_nth_same idx _ item (items cur) Hn) |].
  split; [intros j Hj; apply replace_nth_other; exact Hj |].
  split; [apply replace_nth_length |].
  repeat split.
Qed.

Lemma applyReviewForItem_frame_witness :
  let cur :=
    {| count := 3; success_count := 2; fail_count := 1; rubric_used := [];
       batch_weights_used := None; batch_reference_answer := "";
       batch_reference_answer_generated := false;
       items := [failed "s0" "timeout"; graded "s1" 40; graded "s1" 90];
       summary := None; report_files := None |} in
  exists (idx : nat) (item : BatchItem) (newOverall : float),
    nth_error (items cur) idx = Some item
    /\ id item = "s1"%string
    /\ (forall j it', (j < idx)%nat -> nth_error (items cur) j = Some it' ->
                      id it' <> "s1"%string)
    /\ recomputeOverallManualForItem [mkScore "Clarity" 0.8 1]
         (of_option (fun m => m) (batch_weights_used cur)) = Ok newOverall
    /\ nth_error [failed "s0" "timeout";
                  {| id := "s1"; file := "s1"; ok := true;
                     result :=
                       Some {| item_overall_score := 80;
                               item_weighted_overall := Some 80;
                               feedback := "better";
                               item_rubric_scores :=
                                 Some [mkScore "Clarity" 0.8 1] |};
                     error := None |};
                  graded "s1" 90] idx
       = Some {| id := id item; file := file item; ok := ok item;
                 result :=
                   Some {| item_overall_score := newOverall;
                           item_weighted_overall := Some newOverall;
                           feedback := "better";
                           item_rubric_scores :=
                             Some [mkScore "Clarity" 0.8 1] |};
                 error := error item |}.
Proof.
  destruct (applyReviewForItem_frame
    {| count := 3; success_count := 2; fail_count := 1; rubric_used := [];
       batch_weights_used := None; batch_reference_answer := "";
       batch_reference_answer_generated := false;
       items := [failed "s0" "timeout"; graded "s1" 40; graded "s1" 90];
       summary := None; report_files := None |}
    {| count := 3; success_count := 2; fail_count := 1; rubric_used := [];
       batch_weights_used := None; batch_reference_answer := "";
       batch_reference_answer_generated := false;
       items := [failed "s0" "timeout";
                 {| id := "s1"; file := "s1"; ok := true;
                    result :=
                      Some {| item_overall_score := 80;
                              item_weighted_overall := Some 80;
                              feedback := "better";
                              item_rubric_scores :=
                                Some [mkScore "Clarity" 0.8 1] |};
                    error := None |};
                 graded "s1" 90];
       summary := Some {| avg := 85; min := 80; max := 90; stdev := 5;
                          pass_rate := 100 |};
       report_files := None |}
    "s1" [mkScore "Clarity" 0.8 1] "better" "60" eq_refl)
    as [idx [item [newOverall [H1 [H2 [H3 [H4 [H5 _]]]]]]]].
  exists idx, item, newOverall.
  split; [exact H1 |]. split; [exact H2 |]. split; [exact H3 |].
  split; [exact H4 | exact H5].
Defined.

(** X7: [applyReviewForItem] changes nothing, and calls nothing, exactly
    when there is no batch result, no item is being edited, the edited id is
    the empty string, no item has the edited id, or the first item with that
    id has no result.  An item whose id is empty cannot be reviewed. *)
Theorem applyReviewForItem_no_change :
  forall (current : option BatchGradeResponse) (editingItemId : option string)
         (edited : list RubricScore) (editedFeedback passThreshold : string),
    applyReviewForItem current editingItemId edited editedFeedback
      passThreshold = Ok None
    <-> match current, editingItemId with
        | Some cur, Some eid =>
            is_empty eid = true
            \/ match find (fun it => String.eqb (id it) eid) (items cur) with
               | Some item => result item = None
               | None => True
               end
        | _, _ => True
        end.
Proof.
  intros current editing edited fb th. unfold applyReviewForItem.
  destruct current as [cur|]; [| split; [intros _; exact I | reflexivity]].
  destruct editing as [eid|]; [| split; [intros _; exact I | reflexivity]].
  destruct (is_empty eid) eqn:E.
  { split; [intros _; left; reflexivity | reflexivity]. }
  pose proof (findIndex_find eid (items cur)) as F.
  destruct (findIndex eid (items cur)) as [idx|].
  - destruct F as [item [Hn Hf]]. rewrite Hn, Hf.
    destruct (result item) as [ir|].
    + split.
      * intros H.
        destruct (recomputeOverallManualForItem edited
                    (of_option (fun m => m) (batch_weights_used cur)));
          discriminate H.
      * intros [C | C]; discriminate C.
    + split; [intros _; right; reflexivity | reflexivity].
  - rewrite F. split; [intros _; right; exact I | reflexivity].
Qed.

(** ** The selection of the student files *)

Lemma find_none_Forall {A} (f : A -> bool) (l : list A) :
  find f l = None -> Forall (fun x => f x = false) l.
Proof.
  induction l as [|a r IH]; simpl; intros H; [constructor |].
  destruct (f a) eqn:E; [discriminate H |].
  constructor; [exact E | exact (IH H)].
Qed.

Lemma handleStudentFilesUpload_cases (files : option (list Upload.File))
  (st : Upload.Selection) :
  (snd (Upload.handleStudentFilesUpload files st) = true
   /\ fst (Upload.handleStudentFilesUpload files st) = st
   /\ exists l, files = Some l /\ (1 < List.length l)%nat
                /\ find Upload.is_zip l <> None)
  \/ (snd (Upload.handleStudentFilesUpload files st) = false
      /\ Upload.exclusive (fst (Upload.handleStudentFilesUpload files st))).
Proof.
  unfold Upload.handleStudentFilesUpload.
  destruct files as [[|f r]|].
  - right. split; [reflexivity | constructor].
  - destruct (find Upload.is_zip (f :: r)) as [z|] eqn:F.
    + destruct (Nat.ltb 1 (List.length (f :: r))) eqn:L.
      * left. split; [reflexivity |]. split; [reflexivity |].
        exists (f :: r). split; [reflexivity |].
        split; [apply PeanoNat.Nat.ltb_lt; exact L |].
        rewrite F. discriminate.
      * right. split; [reflexivity |]. unfold Upload.exclusive. cbn.
        apply find_some in F. split; [apply F | reflexivity].
    + right. split; [reflexivity |]. unfold Upload.exclusive. cbn.
      apply find_none_Forall. exact F.
  - right. split; [reflexivity | constructor].
Qed.

(** X8: a ZIP archive is never selected together with other files.  After
    [handleStudentFilesUpload] either the alert was shown, the selection is
    untouched and the event brought several files one of which is a ZIP
    archive, or the selection is exclusive: a single [.zip] file (in any
    letter case) and no student files, or student files none of which is a
    [.zip].  An exclusive selection stays exclusive, and [clearSelection]
    leaves an exclusive (empty) selection. *)
Theorem handleStudentFilesUpload_exclusive :
  forall (files : option (list Upload.File)) (st : Upload.Selection),
    ((snd (Upload.handleStudentFilesUpload files st) = true
      /\ fst (Upload.handleStudentFilesUpload files st) = st
      /\ exists l, files = Some l /\ (1 < List.length l)%nat
                   /\ find Upload.is_zip l <> None)
     \/ (snd (Upload.handleStudentFilesUpload files st) = false
         /\ Upload.exclusive (fst (Upload.handleStudentFilesUpload files st))))
    /\ (Upload.exclusive st ->
        Upload.exclusive (fst (Upload.handleStudentFilesUpload files st)))
    /\ Upload.exclusive (Upload.clearSelection st).
Proof.
  intros files st. split; [apply handleStudentFilesUpload_cases |].
  split; [| constructor].
  intros Hst.
  destruct (handleStudentFilesUpload_cases files st)
    as [[_ [E _]] | [_ E]]; [rewrite E; exact Hst | exact E].
Qed.

Lemma handleStudentFilesUpload_exclusive_witness :
  let st := {| Upload.zipFile := Some {| Upload.name := "all.ZIP" |};
               Upload.studentFiles := [] |} in
  let files := Some [ {| Upload.name := "a.pdf" |};
                      {| Upload.name := "b.Zip" |} ] in
  Upload.exclusive (fst (Upload.handleStudentFilesUpload files st)).
Proof.
  apply (proj1 (proj2 (handleStudentFilesUpload_exclusive
    (Some [ {| Upload.name := "a.pdf" |}; {| Upload.name := "b.Zip" |} ])
    {| Upload.zipFile := Some {| Upload.name := "all.ZIP" |};
       Upload.studentFiles := [] |}))).
  split; vm_compute; reflexivity.
Defined.

(** ** Invariants of the normalizers *)

Lemma mapiM_nth {A B} (f : A -> nat -> outcome B) (xs : list A) :
  forall (i : nat) (ys : list B),
    mapiM f i xs = Ok ys ->
    List.length ys = List.length xs
    /\ forall k x y, nth_error xs k = Some x -> nth_error ys k = Some y ->
                     f x (i + k)%nat = Ok y.
Proof.
  induction xs as [|a r IH]; simpl; intros i ys H.
  - inv_ok H. split; [reflexivity |]. intros [|k] x y Hx; discriminate Hx.
  - inv_bind H. inv_bind H. inv_ok H.
    destruct (IH (S i) x0 E0) as [Hl Hn]. split; [simpl; rewrite Hl; reflexivity |].
    intros [|k] x' y' Hx Hy; simpl in Hx, Hy.
    + inv_ok Hx. inv_ok Hy. rewrite PeanoNat.Nat.add_0_r. exact E.
    + rewrite <- plus_n_Sm. exact (Hn k x' y' Hx Hy).
Qed.

Lemma normItem_name (names : list string) (wm : option Value) (it : Loose)
  (idx : nat) (r : RubricScore) :
  normItem names wm it idx = Ok r -> item_name names it idx = Ok (criterion r).
Proof.
  unfold normItem. intros H. inv_bind H.
  repeat (inv_bind H). inv_ok H. exact E.
Qed.

Lemma items_source_of (raw : Loose) :
  nullish raw = false -> items_source raw = Ok (items_of raw).
Proof.
  intros Hn. unfold items_source, items_of.
  rewrite !(get_prop raw _ Hn). cbn [bind].
  destruct (isArray (prop raw "rubric_scores")); [reflexivity |].
  destruct (isArray (prop raw "rubric")); [reflexivity |].
  destruct (isArray (prop raw "details")); reflexivity.
Qed.

(** X9: every result of [normalizeGradeResponse] has a finite overall score
    and one criterion per entry of the raw item list (the first of
    [rubric_scores], [rubric], [details] that is an array), in the same
    order; each criterion has a name that is not empty and is trimmed, a
    finite score, a finite weight and a comment. *)
Theorem normalizeGradeResponse_invariants :
  forall (names : list string) (raw : Loose) (g : GradeResponse),
    normalizeGradeResponse names raw = Ok g ->
    isFinite (overall_score g) = true
    /\ exists rs,
        rubric_scores g = Some rs
        /\ List.length rs = List.length (items_of raw)
        /\ (forall i it r,
              nth_error (items_of raw) i = Some it ->
              nth_error rs i = Some r ->
              item_name names it i = Ok (criterion r))
        /\ Forall (fun r =>
                     trim (criterion r) = criterion r
                     /\ is_empty (criterion r) = false
                     /\ isFinite (score r) = true
                     /\ (exists w, weight r = Some w /\ isFinite w = true)
                     /\ comment r <> None) rs.
Proof.
  intros names raw g H.
  destruct (normalize_shape names raw g H)
    as [os [oc [rs [ra [gen [wo [wm [-> [Fos [_ [Hcan [Hwm [src [Hsrc Hrs]]]]]]]]]]]]]].
  assert (Hn : nullish raw = false).
  { unfold weights_map in Hwm. inv_bind Hwm. inv_get. exact Hnn. }
  rewrite (items_source_of raw Hn) in Hsrc. inv_ok Hsrc.
  split; [exact Fos |]. exists rs. split; [reflexivity |].
  destruct (mapiM_nth (normItem names wm) (items_of raw) 0 rs Hrs) as [Hl Hk].
  split; [exact Hl |]. split.
  - intros i it r Hi Hr. apply (normItem_name names wm). exact (Hk i it r Hi Hr).
  - revert Hcan. apply Forall_impl.
    intros r [w [cm [Hw [Hc [[Ht Hne] [Hs [Hfw _]]]]]]].
    split; [exact Ht |]. split; [exact Hne |]. split; [exact Hs |].
    split; [exists w; split; assumption |].
    rewrite Hc. discriminate.
Qed.

Lemma normalizeGradeResponse_invariants_witness :
  isFinite (overall_score sample_result) = true
  /\ exists rs,
      rubric_scores sample_result = Some rs
      /\ List.length rs = List.length (items_of sample_payload)
      /\ (forall i it r,
            nth_error (items_of sample_payload) i = Some it ->
            nth_error rs i = Some r ->
            item_name ["Clarity"; "  "]%string it i = Ok (criterion r))
      /\ Forall (fun r =>
                   trim (criterion r) = criterion r
                   /\ is_empty (criterion r) = false
                   /\ isFinite (score r) = true
                   /\ (exists w, weight r = Some w /\ isFinite w = true)
                   /\ comment r <> None) rs.
Proof.
  apply (normalizeGradeResponse_invariants ["Clarity"; "  "]%string
           sample_payload sample_result).
  vm_compute. reflexivity.
Defined.

Lemma mapM_length {A B} (f : A -> outcome B) (xs : list A) (ys : list B) :
  mapM f xs = Ok ys -> List.length ys = List.length xs.
Proof.
  intros H. apply mapM_Forall2 in H.
  induction H; simpl; [reflexivity | rewrite IHForall2; reflexivity].
Qed.

Lemma nonempty_strings_Forall (xs : list Value) :
  Forall (fun x => is_empty x = false) (nonempty_strings xs).
Proof.
  induction xs as [|x r IH]; simpl; [constructor |].
  destruct (toStr x) as [t|]; [| exact IH].
  destruct (is_empty t) eqn:E; [exact IH | constructor; assumption].
Qed.

(** What [normalizeBatchResponse] makes of the score and the error of one
    raw item. *)
Lemma normBatchItem_fields (names : list string) (wm : option Value)
  (it : Loose) (bi : BatchItem) :
  normBatchItem names wm it = Ok bi ->
  id bi = str_or_empty (toStr (prop it "id"))
  /\ file bi = str_or_empty (toStr (prop it "file"))
  /\ (forall ir, result bi = Some ir ->
        isFinite (item_overall_score ir) = true)
  /\ (forall e, error bi = Some e ->
        ok bi = false /\ is_empty e = false
        /\ toStr (prop it "error") = Some e).
Proof.
  unfold normBatchItem. intros H.
  apply bind_Ok in H. destruct H as [vid [Hid H]].
  apply bind_Ok in H. destruct H as [vfile [Hfile H]].
  apply bind_Ok in H. destruct H as [vok [Hok H]].
  apply bind_Ok in H. destruct H as [r [Hr H]].
  apply bind_Ok in H. destruct H as [resultItem [Hres H]].
  apply bind_Ok in H. destruct H as [ve [Hve H]].
  inv_get. injection H as H. subst bi. cbn [id file ok result error].
  split; [reflexivity |]. split; [reflexivity |]. split.
  - intros ir Hir. subst resultItem.
    destruct (truthy (prop it "ok") && truthy (prop it "result")
              && typeof_object (prop it "result")); [| discriminate Hres].
    apply bind_Ok in Hres. destruct Hres as [rsv [_ Hres]].
    apply bind_Ok in Hres. destruct Hres as [rubricScores [_ Hres]].
    apply bind_Ok in Hres. destruct Hres as [osv [_ Hres]].
    apply bind_Ok in Hres. destruct Hres as [os [Hos Hres]].
    apply bind_Ok in Hres. destruct Hres as [wo [_ Hres]].
    apply bind_Ok in Hres. destruct Hres as [fb [_ Hres]].
    injection Hres as Hres. subst ir. cbn [item_overall_score].
    exact (toNum_finite osv 0 os isFinite_zero Hos).
  - intros e He.
    destruct (negb (truthy (prop it "ok"))) eqn:Nok; cbn [andb] in He;
      [| discriminate He].
    destruct (toStr (prop it "error")) as [t|] eqn:T; cbn in He.
    + destruct (is_empty t) eqn:Et; cbn in He; [discriminate He |].
      inv_ok He. split; [| split; [exact Et | reflexivity]].
      destruct (truthy (prop it "ok")); [discriminate Nok | reflexivity].
    + discriminate He.
Qed.

(** X10: every result of [normalizeBatchResponse] has one item per entry of
    the raw [items] array; an item's id and file are the texts of the raw
    fields (empty when missing), a present result has a finite overall
    score, and a present error is a non-empty text on an item whose [ok] is
    false; [rubric_used] holds no empty name; and when the payload has no
    [count] key the count is the number of items. *)
Theorem normalizeBatchResponse_invariants :
  forall (names : list string) (raw : Loose) (b : BatchGradeResponse),
    normalizeBatchResponse names raw = Ok b ->
    let rawItems :=
      if isArray (prop raw "items") then elements (prop raw "items") else [] in
    List.length (items b) = List.length rawItems
    /\ Forall2 (fun it bi =>
                  id bi = str_or_empty (toStr (prop it "id"))
                  /\ file bi = str_or_empty (toStr (prop it "file"))
                  /\ (forall ir, result bi = Some ir ->
                        isFinite (item_overall_score ir) = true)
                  /\ (forall e, error bi = Some e ->
                        ok bi = false /\ is_empty e = false
                        /\ toStr (prop it "error") = Some e))
         rawItems (items b)
    /\ Forall (fun x => is_empty x = false) (rubric_used b)
    /\ (own_property raw "count" = None ->
        count b = Num.of_nat (List.length (items b))).
Proof.
  intros names raw b H rawItems. unfold normalizeBatchResponse in H.
  apply bind_Ok in H. destruct H as [vitems [Hvi H]].
  apply bind_Ok in H. destruct H as [wm [Hwm H]].
  apply bind_Ok in H. destruct H as [its [Hits H]].
  apply bind_Ok in H. destruct H as [sl [Hsl H]].
  apply bind_Ok in H. destruct H as [sm [Hsm H]].
  apply bind_Ok in H. destruct H as [vru [Hvru H]].
  apply bind_Ok in H. destruct H as [vrf [Hvrf H]].
  apply bind_Ok in H. destruct H as [vc [Hvc H]].
  apply bind_Ok in H. destruct H as [c [Hc H]].
  apply bind_Ok in H. destruct H as [vsc [Hvsc H]].
  apply bind_Ok in H. destruct H as [sc [Hsc H]].
  apply bind_Ok in H. destruct H as [vfc [Hvfc H]].
  apply bind_Ok in H. destruct H as [fc [Hfc H]].
  apply bind_Ok in H. destruct H as [vra [Hvra H]].
  apply bind_Ok in H. destruct H as [vrg [Hvrg H]].
  apply bind_Ok in H. destruct H as [rf [Hrf H]].
  inv_get. injection H as H. subst b. cbn [items rubric_used count].
  fold rawItems in Hits, Hc.
  pose proof (mapM_length _ _ _ Hits) as Hl.
  split; [exact Hl |]. split.
  - apply mapM_Forall2 in Hits. revert Hits. apply Forall2_impl.
    intros it bi. apply normBatchItem_fields.
  - split.
    + destruct (isArray (prop raw "rubric_used"));
        [apply nonempty_strings_Forall | constructor].
    + intros Hcount. unfold prop in Hc. rewrite Hcount in Hc.
      unfold toNum in Hc. cbn in Hc. inv_ok Hc. rewrite Hl. reflexivity.
Qed.

Lemma normalizeBatchResponse_invariants_witness :
  let raw :=
    VObj [("items"%string,
            VArr [VObj [("id"%string, VNum 7); ("ok"%string, VBool true);
                        ("result"%string,
                          VObj [("overall_score"%string, VStr "81.5")])];
                  VObj [("file"%string, VStr "b.pdf");
                        ("error"%string, VStr "unreadable")]]);
          ("rubric_used"%string, VArr [VStr "Clarity"; VStr ""; VNull])] in
  let b :=
    {| count := 2; success_count := 0; fail_count := 0;
       rubric_used := ["Clarity"%string];
       batch_weights_used := None; batch_reference_answer := "";
       batch_reference_answer_generated := false;
       items :=
         [ {| id := "7"; file := ""; ok := true;
              result := Some {| item_overall_score := 81.5;
                                item_weighted_overall := None;
                                feedback := "";
                                item_rubric_scores := None |};
              error := None |};
           {| id := ""; file := "b.pdf"; ok := false; result := None;
              error := Some "unreadable"%string |} ];
       summary := None; report_files := None |} in
  let rawItems :=
    if isArray (prop raw "items") then elements (prop raw "items") else [] in
  List.length (items b) = List.length rawItems
  /\ Forall2 (fun it bi =>
                id bi = str_or_empty (toStr (prop it "id"))
                /\ file bi = str_or_empty (toStr (prop it "file"))
                /\ (forall ir, result bi = Some ir ->
                      isFinite (item_overall_score ir) = true)
                /\ (forall e, error bi = Some e ->
                      ok bi = false /\ is_empty e = false
                      /\ toStr (prop it "error") = Some e))
       rawItems (items b)
  /\ Forall (fun x => is_empty x = false) (rubric_used b)
  /\ (own_property raw "count" = None ->
      count b = Num.of_nat (List.length (items b))).
Proof.
  apply (normalizeBatchResponse_invariants []).
  vm_compute. reflexivity.
Defined.

(** ** The batch statistics, further *)

Lemma collect_scores_filter (its : list BatchItem) :
  collect_scores (filter scored its) = collect_scores its.
Proof.
  induction its as [|it r IH]; simpl; [reflexivity |].
  unfold scored at 1.
  destruct (result it) as [res|] eqn:R.
  - destruct (ok it) eqn:O; simpl.
    + rewrite R, O. simpl. rewrite IH. reflexivity.
    + exact IH.
  - rewrite Bool.andb_false_r. exact IH.
Qed.

(** X11: the batch statistics ignore every item that failed or has no
    result: the summary of a batch is the summary of its scored items
    alone. *)
Theorem recomputeBatchSummary_scored_only :
  forall (its : list BatchItem) (passThreshold : string),
    recomputeBatchSummary (filter scored its) passThreshold
    = recomputeBatchSummary its passThreshold.
Proof.
  intros its th. unfold recomputeBatchSummary.
  rewrite collect_scores_filter. reflexivity.
Qed.

Lemma is_empty_eq (x : string) : is_empty x = true -> x = ""%string.
Proof. destruct x; [reflexivity | discriminate]. Qed.

Lemma summary_threshold (its : list BatchItem) (a b : string) :
  (if isFinite (NumText.StringToNumber a)
   then NumText.StringToNumber a else 60)
  = (if isFinite (NumText.StringToNumber b)
     then NumText.StringToNumber b else 60) ->
  recomputeBatchSummary its a = recomputeBatchSummary its b.
Proof.
  intros H. unfold recomputeBatchSummary. rewrite H. reflexivity.
Qed.

(** X12: the pass threshold is the number of the threshold text, and 60
    only when that number is not finite: the pass rate (for at most 1000
    collected scores) is the share, in percent and to one decimal, of the
    collected scores that are at least the threshold.  A blank text is the
    number 0, not the default, so every score that is not negative
    passes. *)
Theorem recomputeBatchSummary_threshold :
  forall (its : list BatchItem) (passThreshold : string),
    let scores :=
      map (fun it => match result it with
                     | Some res => item_overall_score res
                     | None => 0
                     end)
        (filter (fun it => ok it && match result it with
                                    | Some _ => true
                                    | None => false
                                    end) its) in
    let th := NumText.StringToNumber passThreshold in
    let threshold := if isFinite th then th else 60 in
    ((List.length scores <= 1000)%nat ->
     pass_rate (recomputeBatchSummary its passThreshold)
     = match scores with
       | [] => 0
       | _ =>
           Num.round
             (Num.of_nat
                (List.length (filter (fun x => threshold <=? x) scores))
              / Num.of_nat (List.length scores) * 100 * 10) / 10
       end)
    /\ (is_empty (trim passThreshold) = true -> th = 0)
    /\ (is_empty (trim passThreshold) = true ->
        recomputeBatchSummary its passThreshold = recomputeBatchSummary its "0")
    /\ (isFinite th = false ->
        recomputeBatchSummary its passThreshold
        = recomputeBatchSummary its "60").
Proof.
  intros its th scores t threshold. split; [| split; [| split]].
  - intros _. unfold recomputeBatchSummary. rewrite collect_scores_eq.
    fold scores. destruct scores as [|x r]; reflexivity.
  - intros H. apply is_empty_eq in H. unfold t, NumText.StringToNumber.
    rewrite H. reflexivity.
  - intros H. apply summary_threshold.
    apply is_empty_eq in H. unfold NumText.StringToNumber at 1 2.
    rewrite H. reflexivity.
  - intros H. apply summary_threshold. fold t. rewrite H. reflexivity.
Qed.

Lemma recomputeBatchSummary_threshold_witness :
  let its := [graded "a" 50; graded "b" 0; failed "c" "timeout";
              graded "d" 70] in
  pass_rate (recomputeBatchSummary its "50") = 66.7
  /\ pass_rate (recomputeBatchSummary its "70.5") = 0
  /\ NumText.StringToNumber "  " = 0
  /\ recomputeBatchSummary its "  " = recomputeBatchSummary its "0"
  /\ recomputeBatchSummary its "sixty" = recomputeBatchSummary its "60"
  /\ pass_rate (recomputeBatchSummary its "  ") = 100
  /\ pass_rate (recomputeBatchSummary its "sixty") = 33.3.
Proof.
  intros its.
  split; [| split; [| split; [| split; [| split; [| split]]]]].
  - apply (proj1 (recomputeBatchSummary_threshold its "50")). simpl. lia.
  - apply (proj1 (recomputeBatchSummary_threshold its "70.5")). simpl. lia.
  - apply (proj1 (proj2 (recomputeBatchSummary_threshold its "  "))).
    reflexivity.
  - apply (proj1 (proj2 (proj2 (recomputeBatchSummary_threshold its "  ")))).
    reflexivity.
  - apply (proj2 (proj2 (proj2 (recomputeBatchSummary_threshold its "sixty")))).
    vm_compute. reflexivity.
  - apply (proj1 (recomputeBatchSummary_threshold its "  ")). simpl. lia.
  - apply (proj1 (recomputeBatchSummary_threshold its "sixty")). simpl. lia.
Defined.

(** ** The weight of an item, at its edges *)

Lemma toNum_undefined (d : float) : toNum VUndef d = Ok d.
Proof. reflexivity. Qed.

(** X13: the default weight 1 is for an item without a weight key; a weight
    key that is present with [null], [false], a blank text or an empty
    array makes the weight 0, since the number of each of them is 0.  (No
    weights map is supplied here.) *)
Theorem item_weight_missing_or_null :
  forall (it : Loose) (name : string),
    is_object it = true ->
    ((forall k, In k weight_aliases -> own_property it k = None) ->
     item_weight None it name = Ok 1)
    /\ (forall v,
          own_property it "weight" = Some v ->
          v = VNull \/ v = VBool false \/ v = VArr []
          \/ (exists x, v = VStr x /\ is_empty (trim x) = true) ->
          item_weight None it name = Ok 0).
Proof.
  intros it name Ho. split.
  - intros Habs. unfold item_weight.
    rewrite (pick_none_present it weight_aliases Ho Habs). reflexivity.
  - intros v Hv Hcases. unfold item_weight.
    rewrite (pick_cons_present it "weight" (tl weight_aliases) v Ho Hv
             : pick it weight_aliases = Ok v).
    cbn [bind].
    destruct Hcases as [-> | [-> | [-> | [x [-> Hx]]]]]; try reflexivity.
    apply is_empty_eq in Hx. unfold toNum, ToNumber. cbn [bind].
    unfold NumText.StringToNumber. rewrite Hx. reflexivity.
Qed.

Lemma item_weight_missing_or_null_witness :
  item_weight None (VObj [("score"%string, VNum 1)]) "Item 1" = Ok 1
  /\ item_weight None
       (VObj [("score"%string, VNum 1); ("weight"%string, VNull)]) "Item 1"
     = Ok 0
  /\ item_weight None
       (VObj [("score"%string, VNum 1); ("weight"%string, VStr "  ")]) "Item 1"
     = Ok 0.
Proof.
  split; [| split].
  - apply (proj1 (item_weight_missing_or_null
             (VObj [("score"%string, VNum 1)]) "Item 1" eq_refl)).
    intros k [<- | [<- | [<- | []]]]; reflexivity.
  - apply (proj2 (item_weight_missing_or_null
             (VObj [("score"%string, VNum 1); ("weight"%string, VNull)])
             "Item 1" eq_refl) VNull eq_refl).
    left. reflexivity.
  - apply (proj2 (item_weight_missing_or_null
             (VObj [("score"%string, VNum 1); ("weight"%string, VStr "  ")])
             "Item 1" eq_refl) (VStr "  ") eq_refl).
    right. right. right. exists "  "%string. split; reflexivity.
Defined.

(** ** The cells of the summary table *)

Lemma substring_length (n m : nat) (x : string) :
  (n + m <= String.length x)%nat -> String.length (substring n m x) = m.
Proof.
  revert n m. induction x as [|c r IH]; intros n m H; simpl in H.
  - assert (n = 0%nat /\ m = 0%nat) as [-> ->] by lia. reflexivity.
  - destruct n as [|n'].
    + destruct m as [|m']; [reflexivity |].
      simpl. rewrite (IH 0%nat m'); [reflexivity | simpl in *; lia].
    + simpl. apply IH. lia.
Qed.

Lemma append_length (a b : string) :
  String.length (a ++ b) = (String.length a + String.length b)%nat.
Proof.
  induction a as [|c r IH]; simpl; [reflexivity | rewrite IH; reflexivity].
Qed.

(** X14: a cell of the summary table never outgrows its column: a header is
    the rubric name itself up to 10 characters and otherwise its first 8
    characters and two dots, 10 characters in all; a file name is itself up
    to 30 characters and otherwise three dots and its last 25 characters,
    28 in all. *)
Theorem summary_cells_fit :
  forall x : string,
    (String.length (Pdf.header_cell x) <= 10)%nat
    /\ (String.length (Pdf.file_cell x) <= 30)%nat
    /\ ((String.length x <= 10)%nat -> Pdf.header_cell x = x)
    /\ ((10 < String.length x)%nat ->
        Pdf.header_cell x = (substring 0 8 x ++ "..")%string
        /\ String.length (Pdf.header_cell x) = 10%nat)
    /\ ((String.length x <= 30)%nat -> Pdf.file_cell x = x)
    /\ ((30 < String.length x)%nat ->
        Pdf.file_cell x
        = ("..." ++ substring (String.length x - 25) 25 x)%string
        /\ String.length (Pdf.file_cell x) = 28%nat).
Proof.
  intros x. unfold Pdf.header_cell, Pdf.file_cell, Pdf.slice_last.
  destruct (Nat.ltb 10 (String.length x)) eqn:H10;
    [apply PeanoNat.Nat.ltb_lt in H10 | apply PeanoNat.Nat.ltb_ge in H10];
  (destruct (Nat.ltb 30 (String.length x)) eqn:H30;
    [apply PeanoNat.Nat.ltb_lt in H30 | apply PeanoNat.Nat.ltb_ge in H30]);
  rewrite ?append_length, ?substring_length by lia; simpl String.length;
  repeat split; try lia; try reflexivity;
  rewrite ?append_length, ?substring_length by lia; simpl String.length;
  try lia.
Qed.

Lemma summary_cells_fit_witness :
  Pdf.header_cell "Completeness" = "Complete.."%string
  /\ String.length (Pdf.header_cell "Completeness") = 10%nat
  /\ Pdf.file_cell "submissions/2024/assignment-03-final.pdf"
     = "...4/assignment-03-final.pdf"%string
  /\ Pdf.header_cell "Method" = "Method"%string.
Proof.
  pose proof (summary_cells_fit "Completeness") as [_ [_ [_ [H _]]]].
  pose proof (summary_cells_fit "submissions/2024/assignment-03-final.pdf")
    as [_ [_ [_ [_ [_ F]]]]].
  pose proof (summary_cells_fit "Method") as [_ [_ [M _]]].
  split; [apply H; simpl; lia |].
  split; [apply H; simpl; lia |].
  split; [apply F; simpl; lia | apply M; simpl; lia].
Defined.

(** ** Payloads on which the normalizer returns *)

Lemma assoc_In {A} (k : string) (kvs : list (string * A)) (v : A) :
  assoc k kvs = Some v -> In (k, v) kvs.
Proof.
  induction kvs as [|[k' v'] r IH]; simpl; intros H; [discriminate H |].
  destruct (String.eqb k k') eqn:E.
  - inv_ok H. apply String.eqb_eq in E. subst k'. left. reflexivity.
  - right. exact (IH H).
Qed.

Lemma index_from_In {A} (i : nat) (xs : list A) (k : string) (x : A) :
  In (k, x) (index_from i xs) -> In x xs.
Proof.
  revert i. induction xs as [|a r IH]; simpl; intros i H; [exact H |].
  destruct H as [H | H]; [inv_ok H; left; reflexivity | right; exact (IH _ H)].
Qed.

Lemma chars_simple (x : string) : Forall (fun v => simple v = true) (chars x).
Proof. induction x; simpl; constructor; [reflexivity | assumption]. Qed.

(** The conversion of a simple value calls no other conversion, and
    returns. *)
Lemma simple_ToNumber (v : Value) :
  simple v = true -> exists n, ToNumber v = Ok n.
Proof.
  intros H. destruct v as [| |b|n|x|xs|kvs]; try (eexists; reflexivity).
  - discriminate H.
  - simpl in H. unfold ToNumber. cbn [ToString].
    destruct (assoc "toString" kvs); [discriminate H |].
    eexists. reflexivity.
Qed.

Lemma simple_toNum (v : Value) (d : float) :
  simple v = true -> exists n, toNum v d = Ok n.
Proof.
  intros H. unfold toNum. destruct (simple_ToNumber v H) as [m Hm].
  rewrite Hm. eexists. reflexivity.
Qed.

Lemma own_property_simple (o : Value) (k : string) (v : Value) :
  flat o = true -> own_property o k = Some v -> simple v = true.
Proof.
  unfold flat. intros Hf H.
  assert (Hin : forall kv, In kv (entries o) -> simple (snd kv) = true)
    by (apply forallb_forall; exact Hf).
  destruct o; simpl in H; try discriminate H.
  - destruct (assoc k (index_from 0 (chars s))) as [c|] eqn:A.
    + inv_ok H. exact (Hin _ (assoc_In _ _ _ A)).
    + destruct (String.eqb k "length"); [inv_ok H; reflexivity | discriminate H].
  - destruct (assoc k (index_from 0 xs)) as [c|] eqn:A.
    + inv_ok H. exact (Hin _ (assoc_In _ _ _ A)).
    + destruct (String.eqb k "length"); [inv_ok H; reflexivity | discriminate H].
  - exact (Hin _ (assoc_In _ _ _ H)).
Qed.

Lemma prop_simple (o : Value) (k : string) :
  flat o = true -> simple (prop o k) = true.
Proof.
  intros Hf. unfold prop.
  destruct (own_property o k) as [v|] eqn:E; [| reflexivity].
  exact (own_property_simple o k v Hf E).
Qed.

Lemma first_present_simple (o : Value) (keys : list string) :
  flat o = true -> simple (first_present o keys) = true.
Proof.
  intros Hf. induction keys as [|k r IH]; simpl; [reflexivity |].
  destruct (own_property o k) as [v|] eqn:E; [| exact IH].
  exact (own_property_simple o k v Hf E).
Qed.

Lemma normItem_returns (names : list string) (wm : option Value)
  (it : Loose) (idx : nat) :
  is_object it = true -> flat it = true ->
  match wm with
  | Some m => is_object m = true /\ flat m = true
  | None => True
  end ->
  exists r, normItem names wm it idx = Ok r.
Proof.
  intros Ho Hp Hwm.
  assert (Hn : nullish it = false) by (destruct it; try discriminate Ho; reflexivity).
  unfold normItem, item_name, item_weight.
  rewrite !(pick_object it _ Ho). cbn [bind].
  unfold Object_entries. rewrite Hn.
  assert (Nm : exists name,
    (fallback <-
       (if is_empty match toStr (first_present it name_aliases) with
                    | Some x => trim x
                    | None => ""%string
                    end && is_empty (trim (nth idx names ""%string))
        then es <- Ok (entries it) ;; Ok (first_string_field es)
        else Ok ""%string) ;;
     Ok (or_else match toStr (first_present it name_aliases) with
                 | Some x => trim x
                 | None => ""%string
                 end
           (or_else (trim (nth idx names ""%string))
              (or_else fallback ("Item " ++ string_of_nat (idx + 1))))))
    = Ok name).
  { destruct (is_empty _ && is_empty _); cbn [bind]; eexists; reflexivity. }
  destruct Nm as [name Hname]. rewrite Hname. cbn [bind].
  destruct (simple_toNum (first_present it weight_aliases) 1
              (first_present_simple it _ Hp)) as [base Hbase].
  rewrite Hbase. cbn [bind].
  destruct (simple_toNum (first_present it score_aliases) 0
              (first_present_simple it _ Hp)) as [sc Hsc].
  destruct wm as [m|].
  - destruct Hwm as [Hom Hpm].
    rewrite (has_property_object m name Hom). cbn [bind].
    rewrite (get_object m name Hom).
    destruct (own_property m name) as [v|] eqn:E; cbn [bind].
    + destruct (simple_toNum v nan (own_property_simple m name v Hpm E))
        as [w Hw].
      rewrite Hw. cbn [bind]. rewrite Hsc. cbn [bind]. eexists. reflexivity.
    + rewrite Hsc. cbn [bind]. eexists. reflexivity.
  - cbn [bind]. rewrite Hsc. cbn [bind]. eexists. reflexivity.
Qed.

Lemma mapiM_returns (names : list string) (wm : option Value)
  (xs : list Value) :
  Forall (fun it => is_object it && flat it = true) xs ->
  match wm with
  | Some m => is_object m = true /\ flat m = true
  | None => True
  end ->
  forall i, exists rs, mapiM (normItem names wm) i xs = Ok rs.
Proof.
  intros Ho Hwm. induction Ho as [|x r Hx _ IH]; intros i;
    [exists []; reflexivity |].
  apply andb_prop in Hx. destruct Hx as [Hx1 Hx2].
  destruct (normItem_returns names wm x i Hx1 Hx2 Hwm) as [y Hy].
  destruct (IH (S i)) as [ys Hys].
  exists (y :: ys). simpl. rewrite Hy. cbn [bind]. rewrite Hys. reflexivity.
Qed.

Lemma truthy_object (v : Value) :
  truthy v && typeof_object v = true -> is_object v = true.
Proof.
  destruct v; simpl; intros H; try discriminate H; try reflexivity.
  - destruct b; discriminate H.
  - rewrite Bool.andb_false_r in H. discriminate H.
  - rewrite Bool.andb_false_r in H. discriminate H.
Qed.

Lemma weights_map_flat (raw : Loose) :
  flat (prop raw "weights_used") = true ->
  match (if truthy (prop raw "weights_used")
            && typeof_object (prop raw "weights_used")
         then Some (prop raw "weights_used") else None) with
  | Some m => is_object m = true /\ flat m = true
  | None => True
  end.
Proof.
  intros Hp.
  destruct (truthy (prop raw "weights_used")
            && typeof_object (prop raw "weights_used")) eqn:T; [| exact I].
  split; [apply truthy_object; exact T | exact Hp].
Qed.

(** X15: [normalizeGradeResponse] returns a result, and does not throw, on
    every payload that is an object, when each value that it converts to a
    number is simple (it is not an array, and not an object with an own
    [toString] property): the values under [overall_score], [total_score]
    and [score], the properties of the weights map, and the properties of
    the entries of the item list (the first of [rubric_scores], [rubric],
    [details] that is an array), which are objects or arrays. *)
Theorem normalizeGradeResponse_returns :
  forall (names : list string) (raw : Loose),
    is_object raw = true ->
    Forall (fun k => simple (prop raw k) = true)
      ["overall_score"; "total_score"; "score"]%string ->
    flat (prop raw "weights_used") = true ->
    Forall (fun it => is_object it && flat it = true) (items_of raw) ->
    exists g, normalizeGradeResponse names raw = Ok g.
Proof.
  intros names raw Ho Hnum Hmap Hitems.
  assert (Hn : nullish raw = false)
    by (destruct raw; try discriminate Ho; reflexivity).
  unfold normalizeGradeResponse, weights_map, overall_source.
  rewrite (items_source_of raw Hn), !(get_prop raw _ Hn). cbn [bind].
  set (wm := if truthy (prop raw "weights_used")
                && typeof_object (prop raw "weights_used")
             then Some (prop raw "weights_used") else None).
  pose proof (weights_map_flat raw Hmap) as Hwm. fold wm in Hwm.
  inversion Hnum as [|? ? H1 Hnum1]; subst.
  inversion Hnum1 as [|? ? H2 Hnum2]; subst.
  inversion Hnum2 as [|? ? H3 _]; subst.
  assert (Hos : exists os,
    (osrc <- (if nullish (prop raw "overall_score")
              then if nullish (prop raw "total_score")
                   then Ok (prop raw "score")
                   else Ok (prop raw "total_score")
              else Ok (prop raw "overall_score")) ;;
     toNum osrc 0) = Ok os).
  { destruct (nullish (prop raw "overall_score"));
      [destruct (nullish (prop raw "total_score")) |];
      cbn [bind]; apply simple_toNum; assumption. }
  destruct Hos as [os Hos].
  destruct (nullish (prop raw "overall_score"));
    [destruct (nullish (prop raw "total_score")) |];
    cbn [bind] in Hos |- *; rewrite Hos; cbn [bind];
    rewrite !(pick_object raw _ Ho); cbn [bind];
    destruct (mapiM_returns names wm (items_of raw) Hitems Hwm 0)
      as [rs Hrs];
    rewrite Hrs; cbn [bind]; eexists; reflexivity.
Qed.

Lemma normalizeGradeResponse_returns_witness :
  exists g, normalizeGradeResponse ["Clarity"; "  "]%string sample_payload
            = Ok g.
Proof.
  apply (normalizeGradeResponse_returns ["Clarity"; "  "]%string
           sample_payload).
  - reflexivity.
  - repeat constructor.
  - reflexivity.
  - repeat constructor.
Defined.

Lemma normBatchItem_returns (names : list string) (wm : option Value)
  (it : Loose) :
  match wm with
  | Some m => is_object m = true /\ flat m = true
  | None => True
  end ->
  readable_item it ->
  exists bi, normBatchItem names wm it = Ok bi.
Proof.
  intros Hwm [Hn Hrs]. unfold normBatchItem.
  rewrite !(get_prop it _ Hn). cbn [bind].
  destruct (truthy (prop it "ok") && truthy (prop it "result")
            && typeof_object (prop it "result")) eqn:T;
    [| cbn [bind]; eexists; reflexivity].
  destruct (Hrs eq_refl) as [Hscore Hentries].
  set (r := prop it "result") in *.
  assert (Hr : is_object r = true).
  { apply truthy_object. apply andb_prop in T. destruct T as [T1 T2].
    apply andb_prop in T1. destruct T1 as [_ T1]. rewrite T1, T2. reflexivity. }
  assert (Hnr : nullish r = false)
    by (destruct r; try discriminate Hr; reflexivity).
  rewrite !(get_prop r _ Hnr). cbn [bind].
  assert (Hscores : exists rubricScores,
    (if isArray (prop r "rubric_scores")
     then l <- mapiM (normRubricItem names wm) 0
                 (elements (prop r "rubric_scores")) ;;
          Ok (Some l)
     else Ok None) = Ok rubricScores).
  { destruct (isArray (prop r "rubric_scores")) eqn:A;
      [| eexists; reflexivity].
    destruct (mapiM_returns names wm _ Hentries Hwm 0) as [l Hl].
    unfold normRubricItem. rewrite Hl. eexists. reflexivity. }
  destruct Hscores as [rubricScores Hsc]. rewrite Hsc. cbn [bind].
  destruct (simple_toNum (prop r "overall_score") 0 Hscore) as [os Hos].
  rewrite Hos. cbn [bind]. rewrite (pick_object r _ Hr). cbn [bind].
  eexists. reflexivity.
Qed.

Lemma mapM_returns {A B} (f : A -> outcome B) (xs : list A) :
  Forall (fun x => exists y, f x = Ok y) xs -> exists ys, mapM f xs = Ok ys.
Proof.
  induction 1 as [|x r [y Hy] _ [ys Hys]]; [exists []; reflexivity |].
  exists (y :: ys). simpl. rewrite Hy. cbn [bind]. rewrite Hys. reflexivity.
Qed.

(** X16: [normalizeBatchResponse] returns a result, and does not throw, on
    every payload that is neither [null] nor [undefined], when each value
    that it converts to a number is simple (it is not an array, and not an
    object with an own [toString] property): the values under [count],
    [success_count] and [fail_count], the properties of the summary and of
    the weights map, and, in each entry of [items], which is not [null],
    the [overall_score] of a successful item's result object and the
    properties of the entries of its [rubric_scores], which are objects or
    arrays. *)
Theorem normalizeBatchResponse_returns :
  forall (names : list string) (raw : Loose),
    nullish raw = false ->
    Forall (fun k => simple (prop raw k) = true)
      ["count"; "success_count"; "fail_count"]%string ->
    flat (prop raw "summary") = true ->
    flat (prop raw "weights_used") = true ->
    Forall readable_item
      (if isArray (prop raw "items") then elements (prop raw "items") else []) ->
    exists b, normalizeBatchResponse names raw = Ok b.
Proof.
  intros names raw Hn Hnum Hsum Hmap Hitems.
  unfold normalizeBatchResponse, weights_map, summary_source.
  rewrite !(get_prop raw _ Hn). cbn [bind].
  set (rawItems := if isArray (prop raw "items")
                   then elements (prop raw "items") else []) in *.
  set (wm := if truthy (prop raw "weights_used")
                && typeof_object (prop raw "weights_used")
             then Some (prop raw "weights_used") else None).
  pose proof (weights_map_flat raw Hmap) as Hwm. fold wm in Hwm.
  inversion Hnum as [|? ? H1 Hnum1]; subst.
  inversion Hnum1 as [|? ? H2 Hnum2]; subst.
  inversion Hnum2 as [|? ? H3 _]; subst.
  assert (Hits : exists its, mapM (normBatchItem names wm) rawItems = Ok its).
  { apply mapM_returns. rewrite Forall_forall in *. intros it Hin.
    apply normBatchItem_returns; [exact Hwm | apply Hitems; exact Hin]. }
  destruct Hits as [its Hits]. rewrite Hits. cbn [bind].
  assert (Hsm : exists sm,
    match (if truthy (prop raw "summary") && typeof_object (prop raw "summary")
           then Some (prop raw "summary") else None) with
    | Some sl => x <- normSummary sl ;; Ok (Some x)
    | None => Ok None
    end = Ok sm).
  { destruct (truthy (prop raw "summary")
              && typeof_object (prop raw "summary")) eqn:T;
      [| eexists; reflexivity].
    pose proof (truthy_object _ T) as Hso.
    assert (Hsn : nullish (prop raw "summary") = false)
      by (destruct (prop raw "summary"); try discriminate Hso; reflexivity).
    unfold normSummary. rewrite !(get_prop _ _ Hsn). cbn [bind].
    destruct (simple_toNum (prop (prop raw "summary") "avg") 0
                (prop_simple _ _ Hsum)) as [a Ha].
    destruct (simple_toNum (prop (prop raw "summary") "min") 0
                (prop_simple _ _ Hsum)) as [mi Hmi].
    destruct (simple_toNum (prop (prop raw "summary") "max") 0
                (prop_simple _ _ Hsum)) as [ma Hma].
    destruct (simple_toNum (prop (prop raw "summary") "stdev") 0
                (prop_simple _ _ Hsum)) as [sd Hsd].
    destruct (simple_toNum (prop (prop raw "summary") "pass_rate") 0
                (prop_simple _ _ Hsum)) as [pr Hpr].
    rewrite Ha. cbn [bind]. rewrite Hmi. cbn [bind]. rewrite Hma. cbn [bind].
    rewrite Hsd. cbn [bind]. rewrite Hpr. cbn [bind]. eexists. reflexivity. }
  destruct Hsm as [sm Hsm]. rewrite Hsm. cbn [bind].
  destruct (simple_toNum (prop raw "count") (Num.of_nat (List.length rawItems))
              H1) as [c Hc].
  destruct (simple_toNum (prop raw "success_count") 0 H2) as [sc Hsc].
  destruct (simple_toNum (prop raw "fail_count") 0 H3) as [fc Hfc].
  rewrite Hc. cbn [bind]. rewrite Hsc. cbn [bind]. rewrite Hfc. cbn [bind].
  destruct (truthy (prop raw "report_files")
            && typeof_object (prop raw "report_files")) eqn:T.
  - pose proof (truthy_object _ T) as Hro.
    assert (Hrn : nullish (prop raw "report_files") = false)
      by (destruct (prop raw "report_files"); try discriminate Hro;
          reflexivity).
    rewrite !(get_prop _ _ Hrn). cbn [bind]. eexists. reflexivity.
  - cbn [bind]. eexists. reflexivity.
Qed.

Lemma normalizeBatchResponse_returns_witness :
  exists b,
    normalizeBatchResponse []
      (VObj [("items"%string,
               VArr [VObj [("id"%string, VStr "s1"); ("ok"%string, VBool true);
                           ("result"%string,
                             VObj [("overall_score"%string, VNum 80);
                                   ("rubric_scores"%string,
                                     VArr [VObj [("criterion"%string,
                                                   VStr "Clarity");
                                                 ("score"%string, VNum 0.8)]])])];
                     VNum 5;
                     VObj [("ok"%string, VBool false);
                           ("error"%string, VStr "timeout")]]);
             ("summary"%string, VObj [("avg"%string, VNum 80)])])
    = Ok b.
Proof.
  apply normalizeBatchResponse_returns.
  - reflexivity.
  - repeat constructor.
  - reflexivity.
  - reflexivity.
  - repeat constructor; intros H; try discriminate H; repeat constructor.
Defined.

(** ** The aggregate returns *)

Lemma weighted_sums_returns (uw : bool) (wu : Value)
  (scores : list RubricScore) :
  (uw = true -> nullish wu = false) ->
  flat wu = true ->
  forall sw ssw, exists sums, weighted_sums uw wu scores sw ssw = Ok sums.
Proof.
  intros Hn Hp. induction scores as [|x r IH]; intros sw ssw;
    [eexists; reflexivity |].
  simpl. unfold effective_weight.
  assert (E : exists rawW,
    (if uw then v <- get wu (criterion x) ;; ToNumber (coalesce v (VNum 1))
     else Ok 1) = Ok rawW).
  { destruct uw; [| eexists; reflexivity].
    rewrite (get_prop wu _ (Hn eq_refl)). cbn [bind].
    apply simple_ToNumber. unfold coalesce.
    destruct (nullish (prop wu (criterion x)));
      [reflexivity | apply prop_simple; exact Hp]. }
  destruct E as [rawW HrawW]. rewrite HrawW. cbn [bind]. apply IH.
Qed.

(** X17: the aggregate returns a number, and does not throw, on every list
    of at most 1000 criteria and every weights map whose properties are
    simple (none is an array or an object with an own [toString]
    property): in particular on [undefined], on [null] and on a map of
    numbers. *)
Theorem recomputeOverallManual_returns :
  forall (scores : list RubricScore) (weightsUsed : Value),
    (List.length scores <= 1000)%nat ->
    flat weightsUsed = true ->
    exists r,
      recomputeOverallManual scores weightsUsed = Ok r
      /\ recomputeOverallManualForItem scores weightsUsed = Ok r.
Proof.
  intros scores wu _ Hp.
  change (recomputeOverallManualForItem scores wu)
    with (recomputeOverallManual scores wu).
  unfold recomputeOverallManual.
  destruct scores as [|x r]; [exists 0; split; reflexivity |].
  assert (U : exists uw, use_weights wu = Ok uw
                         /\ (uw = true -> nullish wu = false)).
  { unfold use_weights, Object_keys, Object_entries.
    destruct (truthy wu) eqn:T.
    - assert (Hn : nullish wu = false)
        by (destruct wu; try discriminate T; reflexivity).
      rewrite Hn. cbn [bind]. eexists. split; [reflexivity |].
      intros _. reflexivity.
    - exists false. split; [reflexivity | discriminate]. }
  destruct U as [uw [Hu Hn]]. rewrite Hu. cbn [bind].
  destruct (weighted_sums_returns uw wu (x :: r) Hn Hp 0 0) as [[sw ssw] Hs].
  rewrite Hs. cbn [bind].
  destruct (sw =? 0); eexists; split; reflexivity.
Qed.

Lemma recomputeOverallManual_returns_witness :
  exists r,
    recomputeOverallManual [mkScore "Clarity" 0.8 2; mkScore "Method" 0.5 1]
      (VObj [("Clarity"%string, VNum 3); ("Method"%string, VStr "two")])
    = Ok r
    /\ recomputeOverallManualForItem
         [mkScore "Clarity" 0.8 2; mkScore "Method" 0.5 1]
         (VObj [("Clarity"%string, VNum 3); ("Method"%string, VStr "two")])
       = Ok r.
Proof.
  apply recomputeOverallManual_returns; [simpl; lia | reflexivity].
Defined.

(** ** The weight shown and the weight used *)

Lemma toNum_finite_inv (v : Value) (w : float) :
  toNum v nan = Ok w -> isFinite w = true -> ToNumber v = Ok w.
Proof.
  unfold toNum. intros H F. apply bind_Ok in H. destruct H as [n [Hn H]].
  injection H as H. destruct (isFinite n) eqn:Fn.
  - subst w. exact Hn.
  - subst w. discriminate F.
Qed.

Lemma entry_makes_keys (m : Value) (k : string) (v : Value) (w : float) :
  truthy m && typeof_object m = true ->
  own_property m k = Some v ->
  ToNumber v = Ok w -> (0 <? w) = true ->
  use_weights m = Ok true.
Proof.
  intros Hm Hv Hw Hpos. pose proof (truthy_object m Hm) as Ho.
  unfold use_weights, Object_keys, Object_entries.
  destruct m as [| | | | |xs|kvs]; try discriminate Ho; cbn.
  - destruct xs as [|x r]; [| reflexivity].
    cbn in Hv. destruct (String.eqb k "length"); [| discriminate Hv].
    injection Hv as Hv. subst v. cbn in Hw. injection Hw as Hw. subst w.
    vm_compute in Hpos. discriminate Hpos.
  - destruct kvs as [|kv r]; [discriminate Hv | reflexivity].
Qed.

(** X18: the weight shown is the weight used, when the map decides.  For
    a criterion normalized under a weights map whose entry for the
    criterion's name has a finite, positive number, that number is the
    criterion's weight after normalization and also its weight in the
    aggregate. *)
Theorem shown_weight_is_used_weight :
  forall (names : list string) (m : Value) (it : Loose) (idx : nat)
         (r : RubricScore) (v : Value) (w : float),
    truthy m && typeof_object m = true ->
    normItem names (Some m) it idx = Ok r ->
    own_property m (criterion r) = Some v ->
    toNum v nan = Ok w ->
    isFinite w = true ->
    (0 <? w) = true ->
    weight r = Some w
    /\ use_weights m = Ok true
    /\ effective_weight true m r = Ok w.
Proof.
  intros names m it idx r v w Hm Hnorm Hv Hw Fw Hpos.
  pose proof (truthy_object m Hm) as Ho.
  pose proof (toNum_finite_inv v w Hw Fw) as Hn.
  assert (Hnn : nullish v = false).
  { destruct v; try reflexivity.
    - cbn in Hn. injection Hn as Hn. subst w. discriminate Fw.
    - cbn in Hn. injection Hn as Hn. subst w. discriminate Hpos. }
  split; [| split].
  - unfold normItem in Hnorm.
    apply bind_Ok in Hnorm. destruct Hnorm as [name [Hname Hnorm]].
    apply bind_Ok in Hnorm. destruct Hnorm as [w0 [Hw0 Hnorm]].
    apply bind_Ok in Hnorm. destruct Hnorm as [sraw [_ Hnorm]].
    apply bind_Ok in Hnorm. destruct Hnorm as [sc [_ Hnorm]].
    apply bind_Ok in Hnorm. destruct Hnorm as [craw [_ Hnorm]].
    injection Hnorm as Hnorm. subst r. cbn [criterion weight] in *.
    f_equal. unfold item_weight in Hw0.
    apply bind_Ok in Hw0. destruct Hw0 as [wraw [_ Hw0]].
    apply bind_Ok in Hw0. destruct Hw0 as [base [_ Hw0]].
    rewrite (has_property_object m name Ho), Hv in Hw0. cbn [bind] in Hw0.
    rewrite (get_object m name Ho), Hv in Hw0. cbn [bind] in Hw0.
    rewrite Hw in Hw0. cbn [bind] in Hw0. rewrite Fw in Hw0.
    injection Hw0 as Hw0. symmetry. exact Hw0.
  - exact (entry_makes_keys m (criterion r) v w Hm Hv Hn Hpos).
  - unfold effective_weight.
    rewrite (get_object m (criterion r) Ho), Hv. cbn [bind].
    unfold coalesce. rewrite Hnn, Hn. cbn [bind].
    rewrite Fw, Hpos. reflexivity.
Qed.

Lemma shown_weight_is_used_weight_witness :
  let m := VObj [("Clarity"%string, VStr "3")] in
  let r := {| criterion := "Clarity"; score := 0.8; weight := Some 3;
              comment := Some "clear"%string |} in
  weight r = Some 3
  /\ use_weights m = Ok true
  /\ effective_weight true m r = Ok 3.
Proof.
  apply (shown_weight_is_used_weight []
           (VObj [("Clarity"%string, VStr "3")])
           (VObj [("name"%string, VStr " Clarity"); ("score"%string, VNum 0.8);
                  ("w"%string, VNum 2); ("reason"%string, VStr "clear")])
           0 _ (VStr "3") 3).
  - reflexivity.
  - vm_compute. reflexivity.
  - reflexivity.
  - vm_compute. reflexivity.
  - reflexivity.
  - reflexivity.
Defined.
